(** * USSD-TCP: the frame codec and the session responder of [main.go]

    A shallow embedding of the client in [src/main.go] (the version that
    declares [connMutex], together with [src/structs.go]): the header
    construction and the framing of [sendMessage], the parsing of
    [readResponse], the dialog handler [handleUSSDRequest] /
    [handleMenuRequest], the resolver call [getUssdMenu], the main thread
    of [main] (logon, then the enquire-link ticker), the dispatcher
    ([listenToTCPMessages], [processServerMessage]) and the start-up
    ([init]).

    Conventions.
    - A Go [string] is a [string]; a Go [[]byte] is a [list byte];
      [[]byte(s)] is [list_byte_of_string] and [string(b)] is
      [string_of_list_byte].
    - A Go [int] is a [Z]; the one arithmetic operation of the code on an
      [int] ([len(fullXML)+32]) is wrapped to 64 bits by [int_wrap].
    - The connection, the loggers, the goroutines started and the resolver
      are effects: a computation is a function from a [World] to an
      [outcome] and a new [World], whose [trace] lists what was done. *)

From Stdlib Require Import ZArith List String Ascii Lia Bool.
From Stdlib Require Import Strings.Byte Numbers.DecimalString.
From Stdlib Require Decimal.
Import ListNotations.

Set Warnings "-register-all".

Local Open Scope string_scope.
Local Open Scope list_scope.

(** ** Integers, formatting and parsing *)

Module GoInt.

Local Open Scope Z_scope.

(** The value of a 64-bit two's complement [int] holding [z]. *)
Definition int_wrap (z : Z) : Z := (z + 2 ^ 63) mod 2 ^ 64 - 2 ^ 63.

Definition int_min : Z := - 2 ^ 63.
Definition int_max : Z := 2 ^ 63 - 1.

(** [len(b)] of a slice, as an [int]. *)
Definition len {A} (b : list A) : Z := Z.of_nat (List.length b).

(** The decimal digits of a natural number, most significant first. *)
Definition digits (z : Z) : string :=
  NilZero.string_of_uint (N.to_uint (Z.to_N (Z.abs z))).

Fixpoint zeros (n : nat) : string :=
  match n with
  | O => EmptyString
  | S n' => String "0" (zeros n')
  end.

(** [fmt.Sprintf("%d", z)]. *)
Definition Sprintf_d (z : Z) : string :=
  if z <? 0 then String "-" (digits z) else digits z.

(** [fmt.Sprintf("%0<width>d", z)]: the width counts the sign, the zeros
    go between the sign and the digits, and a number that needs more than
    [width] characters is printed in full. *)
Definition Sprintf_0d (width : nat) (z : Z) : string :=
  let d := digits z in
  if z <? 0
  then String "-" (zeros (width - 1 - String.length d) ++ d)
  else zeros (width - String.length d) ++ d.

End GoInt.
Export GoInt.

(** The errors the code builds or receives. *)
Inductive error : Type :=
| ErrTimeout                              (* a [net.Error] with [Timeout()] true *)
| ErrIO (msg : string)                    (* any other error of the network *)
| ErrSyntax (fn : string) (arg : string)  (* [strconv.ErrSyntax] *)
| ErrRange (fn : string) (arg : string)   (* [strconv.ErrRange] *)
| ErrNew (msg : string)                   (* [errors.New] *)
| Errorf (format : string) (cause : option error). (* [fmt.Errorf(format, err)] *)

Module Strconv.

Local Open Scope Z_scope.

(** [ch -= '0'; if ch > 9 { error }] *)
Definition digit_of (b : byte) : option Z :=
  let n := Z.of_N (Byte.to_N b) in
  if (48 <=? n) && (n <=? 57) then Some (n - 48) else None.

(** [n = n*10 + int(ch)] over the bytes of the string. *)
Fixpoint accumulate (n : Z) (s : list byte) : option Z :=
  match s with
  | [] => Some n
  | ch :: rest =>
      match digit_of ch with
      | Some d => accumulate (n * 10 + d) rest
      | None => None
      end
  end.

(** [strconv.Atoi]: an optional sign, then at least one decimal digit and
    nothing else; the value must fit an [int]. *)
Definition Atoi (s : string) : Z + error :=
  match list_byte_of_string s with
  | [] => inr (ErrSyntax "Atoi" s)
  | c :: rest =>
      let neg := Byte.eqb c "-"%byte in
      let signed := neg || Byte.eqb c "+"%byte in
      let body := if signed then rest else c :: rest in
      match body with
      | [] => inr (ErrSyntax "Atoi" s)
      | _ =>
          match accumulate 0 body with
          | None => inr (ErrSyntax "Atoi" s)
          | Some n =>
              let v := if neg then - n else n in
              if (int_min <=? v) && (v <=? int_max) then inl v
              else inr (ErrRange "Atoi" s)
          end
      end
  end.

End Strconv.

(** ** Slices *)

(** [make([]byte, n)] *)
Definition make (n : nat) : list byte := repeat "000"%byte n.

(** The contents of [dst] after [copy(dst, src)]: the first
    [min(len(dst), len(src))] bytes come from [src], the rest stay. *)
Definition copy (dst src : list byte) : list byte :=
  firstn (List.length dst) src ++ skipn (List.length src) dst.

(** ** The header and the frame *)

(** [createHeader], lines 503-510. *)
Definition createHeader (sessionID : string) (length : Z) : list byte :=
  let header := make 32 in
  let key := copy (firstn 16 header) (list_byte_of_string sessionID) in
  let lengthStr := Sprintf_0d 3 length in
  let rest := copy (skipn 16 header) (list_byte_of_string lengthStr) in
  key ++ rest.

(** The buffer [sendMessage] hands to [conn.Write], lines 514-516. *)
Definition fullMessage (message : list byte) (sessionID : string) : list byte :=
  let fullXML := message in
  let header := createHeader sessionID (int_wrap (len fullXML + 32)) in
  header ++ fullXML.

(** ** The connection and the effects

    The read side of a [net.Conn] is the list of byte runs the peer has sent
    and that no [Read] has consumed yet, one entry per arrival: a [Read]
    into a buffer of [n > 0] bytes takes at most [n] bytes of the first run
    and returns their number with a nil error, however few they are; with
    nothing pending it fails with [drained] (the deadline passing, or the
    end of the stream).  A [Read] into an empty buffer returns [0, nil].
    The write side answers each [Write] with the next entry of
    [write_results] (none left: success). *)
Record Conn : Type := mkConn {
  pending : list (list byte);
  drained : error;
  deadline_result : option error;
  write_results : list (option error)
}.

Inductive logger : Type := AppLogger | ErrorLogger | RequestLogger | MenuLogger.
Inductive LogLevel : Type := INFO | WARN | ERROR | DEBUG.

(** The goroutines the code starts.  None of the three writes to the
    connection: [startHTTPServer] serves the health check,
    [listenToTCPMessages] reads, and [UpdateMonitoringService] (lines
    867-895) posts a metric over HTTP. *)
Inductive goroutine : Type :=
| startHTTPServer
| listenToTCPMessages
| UpdateMonitoringService (status : string) (err : option error).

(** What a computation does to the outside, in order.  A log entry keeps
    its logger, its level and the format string as the source writes it. *)
Inductive event : Type :=
| EvLog (l : logger) (level : LogLevel) (format : string)
| EvConsole (text : string)             (* [fmt.Println], [log.Printf] *)
| EvSetReadDeadline (seconds : option nat)
| EvRead (size : nat) (got : list byte) (err : option error)
| EvWrite (buf : list byte) (err : option error)
| EvCall (fn : string)
| EvHTTPPost (url : string) (body : list byte)
| EvGo (task : goroutine).

Record World : Type := mkWorld {
  conn : Conn;
  trace : list event
}.

(** How a call ends: it returns, or the process exits ([log.Fatalf]), or it
    panics. *)
Inductive outcome (A : Type) : Type :=
| Done (a : A)
| Fatal (format : string)
| Panic (msg : string).
Arguments Done {A} a.
Arguments Fatal {A} format.
Arguments Panic {A} msg.

Definition M (A : Type) : Type := World -> outcome A * World.

Definition ret {A} (a : A) : M A := fun w => (Done a, w).

Definition bind {A B} (m : M A) (k : A -> M B) : M B :=
  fun w =>
    match m w with
    | (Done a, w') => k a w'
    | (Fatal f, w') => (Fatal f, w')
    | (Panic p, w') => (Panic p, w')
    end.

Declare Scope go_scope.
Delimit Scope go_scope with go.
Notation "x <- m ;; k" := (bind m (fun x => k))
  (at level 61, m at next level, right associativity) : go_scope.
Notation "m ;; k" := (bind m (fun _ => k))
  (at level 61, right associativity) : go_scope.
Local Open Scope go_scope.

Definition emit (e : event) : M unit :=
  fun w => (Done tt, mkWorld (conn w) (trace w ++ [e])).

Definition log (l : logger) (level : LogLevel) (format : string) : M unit :=
  emit (EvLog l level format).

Definition fatal {A} (format : string) : M A := fun w => (Fatal format, w).
Definition panic {A} (msg : string) : M A := fun w => (Panic msg, w).

(** [conn.SetReadDeadline]: [Some 5] is five seconds from now, [None] the
    zero time. *)
Definition SetReadDeadline (seconds : option nat) : M (option error) :=
  fun w =>
    (Done (deadline_result (conn w)),
     mkWorld (conn w) (trace w ++ [EvSetReadDeadline seconds])).

(** [conn.Read(buf)] for [buf] of [size] bytes: the bytes put at the start
    of [buf], and the error. *)
Definition Read (size : nat) : M (list byte * option error) :=
  fun w =>
    let c := conn w in
    match size, pending c with
    | O, _ => (Done ([], None), mkWorld c (trace w ++ [EvRead size [] None]))
    | _, [] =>
        (Done ([], Some (drained c)),
         mkWorld c (trace w ++ [EvRead size [] (Some (drained c))]))
    | _, run :: later =>
        let got := firstn size run in
        let left := skipn size run in
        let pending' := match left with [] => later | _ => left :: later end in
        (Done (got, None),
         mkWorld (mkConn pending' (drained c) (deadline_result c) (write_results c))
                 (trace w ++ [EvRead size got None]))
    end.

(** [conn.Write(buf)]. *)
Definition Write (buf : list byte) : M (option error) :=
  fun w =>
    let c := conn w in
    let err := match write_results c with [] => None | r :: _ => r end in
    (Done err,
     mkWorld (mkConn (pending c) (drained c) (deadline_result c) (tl (write_results c)))
             (trace w ++ [EvWrite buf err])).

(** [sendMessage], lines 512-522. *)
Definition sendMessage (message : list byte) (sessionID : string) : M (option error) :=
  let fullMessage := fullMessage message sessionID in
  log AppLogger INFO "[SEND] Request:\n%s\n";;
  err <- Write fullMessage;;
  ret err.

(** The three results of [readResponse]. *)
Definition response : Type := (list byte * list byte * option error)%type.

(** [readResponse], lines 524-557.  The deferred [SetReadDeadline] runs on
    every return after the first one, and when [make] panics on a negative
    length; a buffer is what [make] gave with the bytes read on top.  The
    length comes from three bytes, so [length-16] cannot wrap. *)
Definition readResponse : M response :=
  err <- SetReadDeadline (Some 5%nat);;
  match err with
  | Some e => ret ([], [], Some (Errorf "failed to set read deadline: %v" (Some e)))
  | None =>
      let finish (r : response) : M response :=
        (SetReadDeadline None;; ret r) in
      r <- Read 19;;
      let header := copy (make 19) (fst r) in
      match snd r with
      | Some ErrTimeout =>
          finish ([], [], Some (Errorf "read timeout: no message received" None))
      | Some e =>
          finish ([], [], Some (Errorf "failed to read header: %v" (Some e)))
      | None =>
          match Strconv.Atoi (string_of_list_byte (skipn 16 header)) with
          | inr e => finish ([], [], Some (Errorf "invalid message length: %v" (Some e)))
          | inl length =>
              if (length - 16 <? 0)%Z
              then (SetReadDeadline None;; panic "makeslice: len out of range")
              else
                r <- Read (Z.to_nat (length - 16));;
                let body := copy (make (Z.to_nat (length - 16))) (fst r) in
                match snd r with
                | Some ErrTimeout =>
                    finish ([], [], Some (Errorf "read timeout: incomplete message" None))
                | Some e =>
                    finish ([], [], Some (Errorf "failed to read body: %v" (Some e)))
                | None => finish (header, body, None)
                end
          end
      end
  end.

(** ** The messages, [structs.go] *)

Record LogonRequest : Type := mkLogonRequest {
  logon_RequestID : string;
  Username : string;
  Password : string;
  ApplicationID : string
}.

Record USSDRequest : Type := mkUSSDRequest {
  XMLName : string;
  RequestID : string;
  MSISDN : string;
  IMSI : string;
  StarCode : string;
  ClientID : string;
  Phase : Z;
  DCS : Z;
  MsgType : Z;
  UserData : string;
  EndOfSession : Z;
  ErrorCode : string
}.

Inductive EnquireLink : Type := mkEnquireLink.

Record USSDMenuRequest : Type := mkUSSDMenuRequest {
  Telco : string;
  Shortcode : string;
  ProductID : Z;
  Phone : string;
  Input : string;
  SessionID : string
}.

Record USSDMenuResponse : Type := mkUSSDMenuResponse {
  Message : string;
  Continue : bool
}.

(** Modelled from the spec: the declaration of the struct [USSDResponse] is
    not among the sources; its fields are those the composite literal of
    [handleMenuRequest] (lines 742-752) sets, which are the fields of a
    USSDRequest without [imsi] and [errorCode]. *)
Record USSDResponse : Type := mkUSSDResponse {
  resp_RequestID : string;
  resp_MSISDN : string;
  resp_StarCode : string;
  resp_ClientID : string;
  resp_Phase : Z;
  resp_DCS : Z;
  resp_MsgType : Z;
  resp_UserData : string;
  resp_EndOfSession : Z
}.

Definition nl : string := String "010" EmptyString.
Definition tab : string := String "009" EmptyString.

(** The [fmt.Sprintf] of lines 763-773: the raw string literal has a line
    break and a tab before every tag but the first. *)
Definition messageXML (response : USSDResponse) : list byte :=
  list_byte_of_string
    ("<USSDResponse>" ++ nl ++ tab ++
     "<requestId>" ++ resp_RequestID response ++ "</requestId>" ++ nl ++ tab ++
     "<msisdn>" ++ resp_MSISDN response ++ "</msisdn>" ++ nl ++ tab ++
     "<starCode>" ++ resp_StarCode response ++ "</starCode>" ++ nl ++ tab ++
     "<clientId>" ++ resp_ClientID response ++ "</clientId>" ++ nl ++ tab ++
     "<phase>" ++ Sprintf_d (resp_Phase response) ++ "</phase>" ++ nl ++ tab ++
     "<dcs>" ++ Sprintf_d (resp_DCS response) ++ "</dcs>" ++ nl ++ tab ++
     "<msgtype>" ++ Sprintf_d (resp_MsgType response) ++ "</msgtype>" ++ nl ++ tab ++
     "<userdata>" ++ resp_UserData response ++ "</userdata>" ++ nl ++ tab ++
     "<EndofSession>" ++ Sprintf_d (resp_EndOfSession response) ++ "</EndofSession>" ++ nl ++ tab ++
     "</USSDResponse>").

(** The reply of lines 742-757: the composite literal, then the two
    assignments under [if !ussdContinue]. *)
Definition buildResponse (req : USSDRequest) (ussdMessage : string)
    (ussdContinue : bool) : USSDResponse :=
  let response :=
    {| resp_RequestID := RequestID req;
       resp_MSISDN := MSISDN req;
       resp_StarCode := StarCode req;
       resp_ClientID := ClientID req;
       resp_Phase := Phase req;
       resp_DCS := DCS req;
       resp_MsgType := 2;
       resp_UserData := ussdMessage;
       resp_EndOfSession := 0 |} in
  if negb ussdContinue
  then {| resp_RequestID := resp_RequestID response;
          resp_MSISDN := resp_MSISDN response;
          resp_StarCode := resp_StarCode response;
          resp_ClientID := resp_ClientID response;
          resp_Phase := resp_Phase response;
          resp_DCS := resp_DCS response;
          resp_MsgType := 6;
          resp_UserData := resp_UserData response;
          resp_EndOfSession := 1 |}
  else response.

(** What [http.Post] followed by [io.ReadAll] gives. *)
Inductive http_result : Type :=
| PostFailed (err : error)
| ReadAllFailed (err : error)
| Body (responseBody : list byte).

(** ** The handlers and the main thread

    The process environment, the clock, the network and the encoders of the
    Go library are what the code is run against. *)
Section Client.

Variable getenv : string -> string.
Variable UnixNano : Z.
Variable dial_result : option error.
Variable cfg_Username cfg_Password cfg_ClientID : string.
Variable xml_Marshal_logon : LogonRequest -> list byte.
Variable xml_Marshal_enquire : EnquireLink -> list byte.
Variable json_Marshal : USSDMenuRequest -> list byte + error.
Variable json_Unmarshal : list byte -> USSDMenuResponse + error.
Variable http_Post : string -> list byte -> http_result.

(** [generateRequestID], lines 498-501. *)
Definition generateRequestID : string :=
  Sprintf_0d 10 (Z.quot UnixNano 1000000).

(** [getUssdMenu], lines 792-848. *)
Definition getUssdMenu (req : USSDRequest) : M (USSDMenuResponse + error) :=
  emit (EvCall "getUssdMenu");;
  log MenuLogger INFO "[INFO] Getting USSD menu for %s with code %s\n and request ID %s";;
  let apiRequest :=
    {| Telco := "MTN";
       Shortcode := "*" ++ StarCode req ++ "#";
       ProductID := 2;
       Phone := MSISDN req;
       Input := UserData req;
       SessionID := RequestID req |} in
  match json_Marshal apiRequest with
  | inr err =>
      log MenuLogger ERROR "[ERROR] Failed to marshal request: %v\n";;
      ret (inr err)
  | inl requestBody =>
      let apiURL := getenv "USSD_API_URL" in
      if String.eqb apiURL ""
      then
        log MenuLogger ERROR "[ERROR] USSD menu url not set";;
        ret (inr (ErrNew "ussd menu url not set"))
      else
        emit (EvHTTPPost apiURL requestBody);;
        match http_Post apiURL requestBody with
        | PostFailed err =>
            log MenuLogger ERROR "[ERROR] Failed to call USSD menu API: %v\n";;
            ret (inr err)
        | ReadAllFailed err =>
            log MenuLogger ERROR "[ERROR] Failed to read response: %v\n";;
            ret (inr err)
        | Body responseBody =>
            log MenuLogger INFO "[INFO] USSD Menu API Request: %s\n";;
            log MenuLogger INFO "[INFO] USSD Menu API Response: %s\n";;
            match json_Unmarshal responseBody with
            | inr err =>
                emit (EvConsole "[ERROR] Failed to parse response JSON: %v\n");;
                ret (inr err)
            | inl apiResponse => ret (inl apiResponse)
            end
        end
  end.

(** [handleMenuRequest], lines 706-781.  Its [conn] argument is the one
    connection of the process, the one of the [World]. *)
Definition handleMenuRequest (req : USSDRequest) : M unit :=
  emit (EvGo (UpdateMonitoringService "new" None));;
  if negb (MsgType req =? 1)%Z && negb (MsgType req =? 4)%Z
  then log AppLogger ERROR "Invalid message type of %d for %s with code %s\n"
  else if String.eqb (UserData req) ""
  then log AppLogger ERROR "Invalid input of %s for %s with code %s\n"
  else
    log AppLogger INFO "[INFO] Continuing USSD session for %s with code %s\n";;
    r <- getUssdMenu req;;
    match r with
    | inr err =>
        log MenuLogger ERROR "[ERROR] Failed to get USSD menu: %v\n";;
        emit (EvGo (UpdateMonitoringService "Failed to get USSD menu" (Some err)))
    | inl apiResponse =>
        let ussdMessage := Message apiResponse in
        let ussdContinue := Continue apiResponse in
        log MenuLogger INFO "USSD Response Message:";;
        log MenuLogger INFO "USSD Continue:";;
        let response := buildResponse req ussdMessage ussdContinue in
        let messageXML := messageXML response in
        log MenuLogger INFO "Sending ussd Request... for %s with code %s\n";;
        err <- sendMessage messageXML (resp_RequestID response);;
        match err with
        | Some e =>
            log MenuLogger ERROR "Failed to send ussd request message: %v";;
            emit (EvGo (UpdateMonitoringService "Failed to send ussd request message" (Some e)))
        | None => ret tt
        end
    end.

(** [handleUSSDRequest], lines 690-703. *)
Definition handleUSSDRequest (req : USSDRequest) : M unit :=
  if negb (String.eqb (ErrorCode req) "")
  then log AppLogger INFO "Error code: %s for %s with code %s\n"
  else if (EndOfSession req =? 0)%Z
  then handleMenuRequest req
  else log AppLogger INFO "USSD session ended for %s with code %s\n".

(** The ticker loop of [main], lines 624-631, for the first [ticks]
    ticks. *)
Fixpoint enquireLoop (ticks : nat) (sessionID : string) : M unit :=
  match ticks with
  | O => ret tt
  | S ticks' =>
      let enquireLink := mkEnquireLink in
      let enqXML := xml_Marshal_enquire enquireLink in
      emit (EvConsole "Sending Enquire Link Request...");;
      err <- sendMessage enqXML sessionID;;
      match err with
      | Some e => fatal "Failed to send Enquire Link: %v"
      | None => enquireLoop ticks' sessionID
      end
  end.

(** The main thread of [main], lines 559-632, observed up to the tick
    number [ticks] of the ticker.  The loop has no exit, so the deferred
    calls never run. *)
Definition main (ticks : nat) : M unit :=
  log AppLogger INFO "Starting USSD TCP Application";;
  emit (EvGo startHTTPServer);;
  match dial_result with
  | Some e => fatal "Error connecting to server: %v"
  | None =>
      let requestID := generateRequestID in
      let logon :=
        {| logon_RequestID := requestID;
           Username := cfg_Username;
           Password := cfg_Password;
           ApplicationID := cfg_ClientID |} in
      let logonXML := xml_Marshal_logon logon in
      emit (EvConsole "Sending Logon Request...");;
      err <- sendMessage logonXML requestID;;
      match err with
      | Some e => fatal "Failed to send logon: %v"
      | None =>
          r <- readResponse;;
          let '(header, body, err) := r in
          match err with
          | Some e =>
              log AppLogger ERROR "Error reading response: %v";;
              log ErrorLogger ERROR "Error reading response: %v";;
              fatal "Error reading response: %v"
          | None =>
              log AppLogger INFO "[FINAL RESPONSE] Header: %s";;
              log AppLogger INFO "[FINAL RESPONSE] Body: %s";;
              let sessionID := string_of_list_byte (firstn 16 header) in
              log AppLogger INFO "Extracted Session ID: %s";;
              emit (EvGo listenToTCPMessages);;
              enquireLoop ticks sessionID
          end
      end
  end.

(** The frames a request makes the handler write: one when the request
    is a valid continuing one and the resolver answers, none otherwise. *)
Definition replies (req : USSDRequest) (w : World) : list (list byte) :=
  if String.eqb (ErrorCode req) "" && (EndOfSession req =? 0)%Z
     && ((MsgType req =? 1)%Z || (MsgType req =? 4)%Z)
     && negb (String.eqb (UserData req) "")
  then
    match fst (getUssdMenu req w) with
    | Done (inl apiResponse) =>
        [fullMessage
           (messageXML (buildResponse req (Message apiResponse)
                                      (Continue apiResponse)))
           (RequestID req)]
    | _ => []
    end
  else [].

End Client.

(** ** The dispatcher and the start-up

    The functions of [main.go] that run beside the main thread.  They keep
    their names inside this module, where the names of the [goroutine]
    constructors are free. *)
Module Tasks.

Section Tasks.

Variable getenv : string -> string.
Variable json_Marshal : USSDMenuRequest -> list byte + error.
Variable json_Unmarshal : list byte -> USSDMenuResponse + error.
Variable http_Post : string -> list byte -> http_result.
Variable xml_Unmarshal : list byte -> USSDRequest + error.
Variable stopped : nat -> bool.

(** [processServerMessage], lines 672-688. *)
Definition processServerMessage (header body : list byte) : M unit :=
  match xml_Unmarshal body with
  | inr err => ret tt
  | inl ussdRequest =>
      if negb (String.eqb (XMLName ussdRequest) "USSDRequest")
      then ret tt
      else
        log RequestLogger INFO "[INFO] Received USSD Request: %+v\n";;
        handleUSSDRequest getenv json_Marshal json_Unmarshal http_Post ussdRequest
  end.

(** [listenToTCPMessages], lines 650-671, for at most [rounds] turns of
    its loop; [stopped i] tells whether [stopChan] is found closed at turn
    [i].  The result lists the messages handed to
    [go processServerMessage], in order, and tells whether the function
    has returned ([true]) or is still in its loop ([false]). *)
Fixpoint listenToTCPMessages (rounds : nat) (i : nat)
    : M (list (list byte * list byte) * bool) :=
  match rounds with
  | O => ret ([], false)
  | S rounds' =>
      if stopped i
      then ret ([], true)
      else
        r <- readResponse;;
        let '(header, body, err) := r in
        match err with
        | Some e =>
            emit (EvCall "time.Sleep");;
            listenToTCPMessages rounds' (S i)
        | None =>
            log AppLogger INFO "[SERVER MESSAGE] Body: %s";;
            rest <- listenToTCPMessages rounds' (S i);;
            ret ((header, body) :: fst rest, snd rest)
        end
  end.

End Tasks.

End Tasks.

Module Startup.

(** The package variables [init] sets; a logger is the directory it
    writes to. *)
Record Globals : Type := mkGlobals {
  ServerAddress : string;
  Username : string;
  Password : string;
  ClientID : string;
  AppLoggerPath : string;
  ErrorLoggerPath : string;
  RequestLoggerPath : string;
  MenuLoggerPath : string
}.

Definition requiredVars : list string :=
  ["SERVER_HOST"; "SERVER_PORT"; "USERNAME"; "PASSWORD"; "CLIENT_ID"].

Section Startup.

Variable godotenv_Load : option error.
Variable getenv : string -> string.
Variable JoinHostPort : string -> string -> string.
Variable logger_New : string -> option error.

(** The loop over [requiredVars], lines 465-469: the first variable found
    empty, if any. *)
Fixpoint firstMissing (vars : list string) : option string :=
  match vars with
  | [] => None
  | v :: vars' => if String.eqb (getenv v) "" then Some v else firstMissing vars'
  end.

(** [init], lines 448-496. *)
Definition init : outcome Globals :=
  match godotenv_Load with
  | Some err => Fatal "Error loading .env file"
  | None =>
      let host := getenv "SERVER_HOST" in
      let port := getenv "SERVER_PORT" in
      let ServerAddress := JoinHostPort host port in
      let Username := getenv "USERNAME" in
      let Password := getenv "PASSWORD" in
      let ClientID := getenv "CLIENT_ID" in
      match firstMissing requiredVars with
      | Some v => Fatal "Missing required environment variable: %s"
      | None =>
          let logPath :=
            if String.eqb (getenv "LOG_PATH") "" then "./logs"
            else getenv "LOG_PATH" in
          match logger_New (logPath ++ "/log") with
          | Some err => Fatal "Failed to initialize logger: %v"
          | None =>
          match logger_New (logPath ++ "/errors") with
          | Some err => Fatal "Failed to initialize error logger: %v"
          | None =>
          match logger_New (logPath ++ "/requests") with
          | Some err => Fatal "Failed to initialize request logger: %v"
          | None =>
          match logger_New (logPath ++ "/menu") with
          | Some err => Fatal "Failed to initialize menu logger: %v"
          | None =>
              Done {| ServerAddress := ServerAddress;
                      Username := Username;
                      Password := Password;
                      ClientID := ClientID;
                      AppLoggerPath := logPath ++ "/log";
                      ErrorLoggerPath := logPath ++ "/errors";
                      RequestLoggerPath := logPath ++ "/requests";
                      MenuLoggerPath := logPath ++ "/menu" |}
          end end end end
      end
  end.

End Startup.

End Startup.

(** ** What a trace shows *)

(** The buffers handed to [conn.Write], in order. *)
Fixpoint writes (t : list event) : list (list byte) :=
  match t with
  | [] => []
  | EvWrite buf _ :: t' => buf :: writes t'
  | _ :: t' => writes t'
  end.

(** The calls of the function [fn]. *)
Fixpoint calls (fn : string) (t : list event) : nat :=
  match t with
  | [] => O
  | EvCall f :: t' => (if String.eqb f fn then 1 else 0) + calls fn t'
  | _ :: t' => calls fn t'
  end.

(** The calls of [http.Post]: an [EvHTTPPost] marks one call, whatever the
    library then puts on the network for it. *)
Fixpoint posts (t : list event) : nat :=
  match t with
  | [] => O
  | EvHTTPPost _ _ :: t' => S (posts t')
  | _ :: t' => posts t'
  end.

(** The [Read] calls made. *)
Fixpoint reads (t : list event) : nat :=
  match t with
  | [] => O
  | EvRead _ _ _ :: t' => S (reads t')
  | _ :: t' => reads t'
  end.

(** The goroutines started, in order. *)
Fixpoint started (t : list event) : list goroutine :=
  match t with
  | [] => []
  | EvGo g :: t' => g :: started t'
  | _ :: t' => started t'
  end.

(** The deadlines set on the connection, in order. *)
Fixpoint deadlines (t : list event) : list (option nat) :=
  match t with
  | [] => []
  | EvSetReadDeadline d :: t' => d :: deadlines t'
  | _ :: t' => deadlines t'
  end.

(** Frames, each a header and a body, laid end to end as one run of
    bytes. *)
Definition stream (frames : list (list byte * list byte)) : list byte :=
  List.concat (map (fun frame => fst frame ++ snd frame) frames).

(** The 16-byte key field of a frame keyed by [key]: the key cut at 16
    bytes, or followed by NUL bytes up to 16. *)
Definition keyField (key : string) : list byte :=
  copy (make 16) (list_byte_of_string key).

(** The error the next [Write] on the connection returns. *)
Definition nextWriteResult (c : Conn) : option error :=
  match write_results c with [] => None | r :: _ => r end.

(** A connection on which nothing has arrived and every write succeeds. *)
Definition idle : Conn := mkConn [] ErrTimeout None [].

(** [decode(encode(sessionKey, payload))]: [sendMessage] writes on an
    idle connection, each buffer written arrives at the reader as one run,
    and [readResponse] reads there. *)
Definition roundTrip (sessionKey : string) (payload : list byte) : outcome response :=
  let sender := snd (sendMessage payload sessionKey (mkWorld idle [])) in
  let reader := mkConn (writes (trace sender)) ErrTimeout None [] in
  fst (readResponse (mkWorld reader [])).

(** ** The scenarios of the specification, as inputs *)

Module Scenario.

(** The environment: a resolver URL is set, and the resolver answers
    every request with the text [Menu text] and [continue: true]. *)
Definition getenv (name : string) : string :=
  if String.eqb name "USSD_API_URL" then "http://resolver.test/ussd" else "".

Definition json_Marshal (r : USSDMenuRequest) : list byte + error :=
  inl (list_byte_of_string
         (Telco r ++ " " ++ Shortcode r ++ " " ++ Phone r ++ " "
                  ++ Input r ++ " " ++ SessionID r)).

Definition http_Post (url : string) (body : list byte) : http_result :=
  Body (list_byte_of_string "Menu text").

Definition json_Unmarshal (responseBody : list byte) : USSDMenuResponse + error :=
  inl {| Message := string_of_list_byte responseBody; Continue := true |}.

Definition xml_Marshal_enquire (e : EnquireLink) : list byte :=
  list_byte_of_string "<ENQRequest></ENQRequest>".

Definition xml_Marshal_logon (l : LogonRequest) : list byte :=
  list_byte_of_string
    ("<AUTHRequest><requestId>" ++ logon_RequestID l ++ "</requestId>"
       ++ "<userName>" ++ Username l ++ "</userName>"
       ++ "<passWord>" ++ Password l ++ "</passWord>"
       ++ "<applicationId>" ++ ApplicationID l ++ "</applicationId></AUTHRequest>").

(** Request [R1] of the specification. *)
Definition menuRequest : USSDRequest :=
  {| XMLName := "USSDRequest"; RequestID := "R1"; MSISDN := "2348011112222";
     IMSI := ""; StarCode := "123"; ClientID := "12345"; Phase := 2; DCS := 15;
     MsgType := 1; UserData := "1"; EndOfSession := 0; ErrorCode := "" |}.

(** The same request once the session has ended upstream. *)
Definition endedRequest : USSDRequest :=
  {| XMLName := "USSDRequest"; RequestID := "R1"; MSISDN := "2348011112222";
     IMSI := ""; StarCode := "123"; ClientID := "12345"; Phase := 2; DCS := 15;
     MsgType := 1; UserData := "1"; EndOfSession := 1; ErrorCode := "" |}.

(** The same request with a message type the handler does not accept. *)
Definition badTypeRequest : USSDRequest :=
  {| XMLName := "USSDRequest"; RequestID := "R1"; MSISDN := "2348011112222";
     IMSI := ""; StarCode := "123"; ClientID := "12345"; Phase := 2; DCS := 15;
     MsgType := 3; UserData := "1"; EndOfSession := 0; ErrorCode := "" |}.

Definition start : World := mkWorld idle [].

(** The gateway answers the logon with one frame keyed
    [SESSIONKEY000001], which arrives whole. *)
Definition logonHeader : list byte := list_byte_of_string "SESSIONKEY000001045".
Definition logonBody : list byte := list_byte_of_string "<AUTHResponse></AUTHResponse>".
Definition afterDial : World :=
  mkWorld (mkConn [logonHeader ++ logonBody] ErrTimeout None []) [].

(** A frame that declares 25 and whose body arrives five bytes short of
    the nine it announces. *)
Definition shortHeader : list byte := list_byte_of_string "SESSIONKEY000001025".
Definition shortBody : list byte := list_byte_of_string "<a/>".

Definition enquiry : list byte := list_byte_of_string "<ENQRequest></ENQRequest>".

(** A payload of 981 bytes: with 19 for the header that makes 1000. *)
Definition oversized : list byte := repeat "x"%byte 981.

End Scenario.

(** ** More inputs: failures and edges *)

Module Cases.

(** An environment without the resolver URL. *)
Definition noURL (name : string) : string := "".

(** A resolver that cannot be reached. *)
Definition http_down (url : string) (body : list byte) : http_result :=
  PostFailed (ErrIO "connection refused").

(** A connection whose next [Write] fails. *)
Definition brokenPipe : World :=
  mkWorld (mkConn [] ErrTimeout None [Some (ErrIO "broken pipe")]) [].

(** The request [R1] with an [EndofSession] of 2. *)
Definition endTwoRequest : USSDRequest :=
  {| XMLName := "USSDRequest"; RequestID := "R1"; MSISDN := "2348011112222";
     IMSI := ""; StarCode := "123"; ClientID := "12345"; Phase := 2; DCS := 15;
     MsgType := 1; UserData := "1"; EndOfSession := 2; ErrorCode := "" |}.

(** [stopChan] is closed when the listener starts its third turn. *)
Definition stopAtThird (i : nat) : bool := (2 <=? i)%nat.

(** [stopChan] stays open. *)
Definition neverStopped (i : nat) : bool := false.

(** Two frames as the reader parses them: 19 bytes of header, then the
    declared length less 16 bytes of body. *)
Definition firstFrame : list byte * list byte :=
  (list_byte_of_string "SESSIONKEY000001020", list_byte_of_string "<a/>").
Definition secondFrame : list byte * list byte :=
  (list_byte_of_string "R2              030", list_byte_of_string "<USSDRequest/>").

(** A header that declares 15. *)
Definition lowHeader : list byte := list_byte_of_string "SESSIONKEY000001015".

(** The first ten bytes of a header, arriving alone. *)
Definition halfHeader : list byte := list_byte_of_string "SESSIONKEY".

(** The main thread when the logon and one keepalive are written and the
    next [Write] fails. *)
Definition secondKeepaliveFails : World :=
  mkWorld (mkConn [Scenario.logonHeader ++ Scenario.logonBody] ErrTimeout None
                  [None; None; Some (ErrIO "broken pipe")]) [].

(** A complete environment for [init], and one without [PASSWORD]. *)
Definition fullEnv (name : string) : string :=
  if String.eqb name "SERVER_HOST" then "10.0.0.1"
  else if String.eqb name "SERVER_PORT" then "8000"
  else if String.eqb name "USERNAME" then "u"
  else if String.eqb name "PASSWORD" then "p"
  else if String.eqb name "CLIENT_ID" then "12345"
  else "".

Definition noPasswordEnv (name : string) : string :=
  if String.eqb name "PASSWORD" then "" else fullEnv name.

Definition JoinHostPort (host port : string) : string := host ++ ":" ++ port.

Definition logger_New (logPath : string) : option error := None.

End Cases.

(** ** Facts on traces *)

Lemma writes_app (t u : list event) : writes (t ++ u) = writes t ++ writes u.
Proof.
  induction t as [| e t IH]; simpl; [reflexivity |].
  destruct e; simpl; rewrite IH; reflexivity.
Qed.

Lemma calls_app (fn : string) (t u : list event) :
  calls fn (t ++ u) = calls fn t + calls fn u.
Proof.
  induction t as [| e t IH]; simpl; [reflexivity |].
  destruct e; simpl; rewrite IH; lia.
Qed.

Lemma posts_app (t u : list event) : posts (t ++ u) = posts t + posts u.
Proof.
  induction t as [| e t IH]; simpl; [reflexivity |].
  destruct e; simpl; rewrite IH; lia.
Qed.

Create Rewrite HintDb trace.
#[local] Hint Rewrite writes_app calls_app posts_app app_nil_r Nat.add_0_r : trace.

Ltac run := cbv [bind ret emit log fatal panic]; cbn [fst snd conn trace].
Ltac observe := simpl conn; simpl trace; autorewrite with trace; simpl.

(** ** The header *)

Lemma string_app_assoc (a b c : string) :
  ((a ++ b) ++ c = a ++ b ++ c)%string.
Proof. induction a as [| x a IH]; simpl; [| rewrite IH]; reflexivity. Qed.

Lemma make_length (n : nat) : List.length (make n) = n.
Proof. apply repeat_length. Qed.

Lemma copy_length (dst src : list byte) :
  List.length (copy dst src) = List.length dst.
Proof.
  unfold copy. rewrite length_app, length_firstn, length_skipn. lia.
Qed.

Lemma createHeader_length (sessionID : string) (length : Z) :
  List.length (createHeader sessionID length) = 32%nat.
Proof.
  unfold createHeader. rewrite length_app, !copy_length.
  rewrite length_firstn, length_skipn, make_length. reflexivity.
Qed.

Lemma createHeader_key (sessionID : string) (length : Z) :
  firstn 16 (createHeader sessionID length) = keyField sessionID.
Proof.
  unfold createHeader, keyField.
  change (firstn 16 (make 32)) with (make 16).
  rewrite firstn_app, copy_length, make_length.
  change (16 - 16)%nat with 0%nat. rewrite firstn_O, app_nil_r.
  apply firstn_all2. rewrite copy_length, make_length. lia.
Qed.

Lemma fullMessage_key (message : list byte) (sessionID : string) :
  firstn 16 (fullMessage message sessionID) = keyField sessionID.
Proof.
  unfold fullMessage. rewrite firstn_app, createHeader_length.
  change (16 - 32)%nat with 0%nat. rewrite firstn_O, app_nil_r.
  apply createHeader_key.
Qed.

Lemma fullMessage_payload (message : list byte) (sessionID : string) :
  skipn 32 (fullMessage message sessionID) = message.
Proof.
  unfold fullMessage.
  rewrite skipn_app, createHeader_length, Nat.sub_diag.
  rewrite skipn_all2 by (rewrite createHeader_length; lia).
  reflexivity.
Qed.

(** [sendMessage] in one equation. *)
Lemma sendMessage_eq (message : list byte) (sessionID : string) (w : World) :
  sendMessage message sessionID w =
  (Done (nextWriteResult (conn w)),
   mkWorld (mkConn (pending (conn w)) (drained (conn w))
                   (deadline_result (conn w)) (tl (write_results (conn w))))
           (trace w ++ [EvLog AppLogger INFO "[SEND] Request:\n%s\n"]
                    ++ [EvWrite (fullMessage message sessionID)
                                (nextWriteResult (conn w))])).
Proof.
  unfold sendMessage, Write, nextWriteResult. run.
  rewrite <- app_assoc. reflexivity.
Qed.

(** ** The session responder *)

Section Responder.

Variable getenv : string -> string.
Variable json_Marshal : USSDMenuRequest -> list byte + error.
Variable json_Unmarshal : list byte -> USSDMenuResponse + error.
Variable http_Post : string -> list byte -> http_result.

Let resolver := getUssdMenu getenv json_Marshal json_Unmarshal http_Post.
Let menu := handleMenuRequest getenv json_Marshal json_Unmarshal http_Post.
Let handler := handleUSSDRequest getenv json_Marshal json_Unmarshal http_Post.
Let replyFrames := replies getenv json_Marshal json_Unmarshal http_Post.

(** The resolver returns, leaves the connection alone, and what it
    returns does not depend on the world it is called in. *)
Lemma getUssdMenu_spec (req : USSDRequest) (w : World) :
  exists r t,
    resolver req w = (Done r, mkWorld (conn w) (trace w ++ t)) /\
    writes t = [] /\
    forall w', fst (resolver req w') = Done r.
Proof.
  subst resolver. unfold getUssdMenu. run.
  assert (Hrun : forall (r : USSDMenuResponse + error) (t t' : list event),
             t = trace w ++ t' -> writes t' = [] ->
             exists r0 t0,
               (Done r, mkWorld (conn w) t) =
                 (Done r0, mkWorld (conn w) (trace w ++ t0)) /\
               writes t0 = [] /\
               (forall w' : World, Done r = Done r0 :> outcome _)).
  { intros r t t' -> Hquiet. exists r, t'. auto. }
  destruct (json_Marshal _) as [requestBody | err]; run.
  2: { eapply Hrun; [rewrite <- !app_assoc |]; reflexivity. }
  destruct (String.eqb _ _); run.
  { eapply Hrun; [rewrite <- !app_assoc |]; reflexivity. }
  destruct (http_Post _ _) as [err | err | responseBody]; run.
  1, 2: eapply Hrun; [rewrite <- !app_assoc |]; reflexivity.
  destruct (json_Unmarshal _) as [apiResponse | err]; run;
    (eapply Hrun; [rewrite <- !app_assoc |]; reflexivity).
Qed.

(** C5. A USSDRequest whose [errorCode] is not empty, and a USSDRequest
    whose [endOfSession] is 1, make [handleUSSDRequest] return with the
    connection untouched: nothing is handed to [conn.Write], and the
    resolver is not called either. *)
Theorem handleUSSDRequest_error_or_ended_no_frame
    (req : USSDRequest) (w : World) :
  ErrorCode req <> "" \/ EndOfSession req = 1%Z ->
  exists w',
    handler req w = (Done tt, w') /\
    conn w' = conn w /\
    writes (trace w') = writes (trace w) /\
    calls "getUssdMenu" (trace w') = calls "getUssdMenu" (trace w).
Proof.
  intros H. subst handler. unfold handleUSSDRequest.
  destruct (String.eqb_spec (ErrorCode req) "") as [Hempty | Hset].
  - destruct H as [H | H]; [contradiction |].
    rewrite H. simpl. run. eexists. split; [reflexivity |].
    observe. auto.
  - simpl. run. eexists. split; [reflexivity |].
    observe. auto.
Qed.

(** C6. A continuing USSDRequest ([errorCode] empty, [endOfSession] 0)
    whose [msgType] is neither 1 nor 4, or whose [userData] is empty, makes
    the handler return with nothing handed to [conn.Write], no call of
    [getUssdMenu] and no HTTP request. *)
Theorem handleUSSDRequest_invalid_no_frame_no_resolver
    (req : USSDRequest) (w : World) :
  ErrorCode req = "" ->
  EndOfSession req = 0%Z ->
  (MsgType req <> 1%Z /\ MsgType req <> 4%Z) \/ UserData req = "" ->
  exists w',
    handler req w = (Done tt, w') /\
    conn w' = conn w /\
    writes (trace w') = writes (trace w) /\
    calls "getUssdMenu" (trace w') = calls "getUssdMenu" (trace w) /\
    posts (trace w') = posts (trace w).
Proof.
  intros Herr Hend Hbad. subst handler.
  unfold handleUSSDRequest, handleMenuRequest.
  rewrite Herr, Hend. simpl.
  destruct (Z.eqb_spec (MsgType req) 1) as [H1 | H1];
    destruct (Z.eqb_spec (MsgType req) 4) as [H4 | H4]; simpl.
  1, 2, 3:
    destruct Hbad as [[? ?] | Hdata]; try contradiction;
    rewrite Hdata; simpl; run; eexists; (split; [reflexivity |]);
    observe; auto.
  run. eexists. split; [reflexivity |]. observe. auto.
Qed.

Lemma buildResponse_RequestID (req : USSDRequest) (m : string) (c : bool) :
  resp_RequestID (buildResponse req m c) = RequestID req.
Proof. destruct c; reflexivity. Qed.

Lemma handleMenuRequest_writes (req : USSDRequest) (w : World) :
  ErrorCode req = "" ->
  EndOfSession req = 0%Z ->
  fst (menu req w) = Done tt /\
  writes (trace (snd (menu req w))) = writes (trace w) ++ replyFrames req w.
Proof.
  intros Herr Hend. subst replyFrames. unfold replies. rewrite Herr, Hend.
  subst menu. unfold handleMenuRequest. simpl.
  destruct (MsgType req =? 1)%Z, (MsgType req =? 4)%Z; simpl.
  4: { run. observe. auto. }
  all: destruct (String.eqb (UserData req) ""); simpl;
    [ run; observe; auto | ].
  all: run;
    match goal with
    | |- context [getUssdMenu _ _ _ _ ?q ?w2] =>
        destruct (getUssdMenu_spec q w2) as (r & t & Heq & Hquiet & Hany)
    end;
    subst resolver; cbv beta in *; rewrite Heq;
    rewrite (Hany w); cbn [fst snd conn trace];
    destruct r as [apiResponse | err]; run.
  all: try solve [rewrite !writes_app, Hquiet; simpl;
                  rewrite ?app_nil_r; auto].
  all: rewrite sendMessage_eq; cbn [fst snd conn trace];
    destruct (nextWriteResult _); run;
    rewrite !writes_app, Hquiet, buildResponse_RequestID; simpl;
    rewrite ?app_nil_r; auto.
Qed.

Lemma handleUSSDRequest_writes (req : USSDRequest) (w : World) :
  fst (handler req w) = Done tt /\
  writes (trace (snd (handler req w))) = writes (trace w) ++ replyFrames req w.
Proof.
  subst handler. unfold handleUSSDRequest.
  destruct (String.eqb_spec (ErrorCode req) "") as [Herr | Herr]; simpl.
  - destruct (Z.eqb_spec (EndOfSession req) 0) as [Hend | Hend].
    + apply handleMenuRequest_writes; assumption.
    + subst replyFrames. unfold replies.
      rewrite (proj2 (Z.eqb_neq _ _) Hend), andb_false_r. simpl.
      run. observe. auto.
  - subst replyFrames. unfold replies.
    rewrite (proj2 (String.eqb_neq _ _) Herr). simpl.
    run. observe. auto.
Qed.

(** C7. For a valid continuing request that the resolver answers, the
    handler hands exactly one frame to [conn.Write], and these are its
    bytes: the header [createHeader] makes for the request's [requestId],
    whose first 16 bytes are that identifier (cut or NUL-padded to 16
    bytes), whatever the session key of the connection is; then the XML
    text that carries [requestId], [msisdn], [starCode], [clientId],
    [phase] and [dcs] of the request, the resolver's message as
    [userdata], and [EndofSession] 0 when the resolver says continue and 1
    when it does not.  The text is that of a response record with these
    same fields. *)
Theorem handleUSSDRequest_reply
    (req : USSDRequest) (w : World) (apiResponse : USSDMenuResponse) :
  ErrorCode req = "" ->
  EndOfSession req = 0%Z ->
  MsgType req = 1%Z \/ MsgType req = 4%Z ->
  UserData req <> "" ->
  fst (resolver req w) = Done (inl apiResponse) ->
  exists frame header response,
    fst (handler req w) = Done tt /\
    writes (trace (snd (handler req w))) = writes (trace w) ++ [frame] /\
    frame = header ++ messageXML response /\
    firstn 16 frame = keyField (RequestID req) /\
    resp_RequestID response = RequestID req /\
    resp_MSISDN response = MSISDN req /\
    resp_StarCode response = StarCode req /\
    resp_ClientID response = ClientID req /\
    resp_Phase response = Phase req /\
    resp_DCS response = DCS req /\
    resp_UserData response = Message apiResponse /\
    resp_EndOfSession response = (if Continue apiResponse then 0 else 1)%Z /\
    header = createHeader (RequestID req)
                          (int_wrap (len (messageXML response) + 32)) /\
    messageXML response =
      list_byte_of_string
        ("<USSDResponse>" ++ nl ++ tab ++
               "<requestId>" ++ RequestID req ++ "</requestId>" ++ nl ++ tab ++
               "<msisdn>" ++ MSISDN req ++ "</msisdn>" ++ nl ++ tab ++
               "<starCode>" ++ StarCode req ++ "</starCode>" ++ nl ++ tab ++
               "<clientId>" ++ ClientID req ++ "</clientId>" ++ nl ++ tab ++
               "<phase>" ++ Sprintf_d (Phase req) ++ "</phase>" ++ nl ++ tab ++
               "<dcs>" ++ Sprintf_d (DCS req) ++ "</dcs>" ++ nl ++ tab ++
               "<msgtype>" ++ (if Continue apiResponse then "2" else "6")
                           ++ "</msgtype>" ++ nl ++ tab ++
               "<userdata>" ++ Message apiResponse ++ "</userdata>" ++ nl ++ tab ++
               "<EndofSession>" ++ (if Continue apiResponse then "0" else "1")
                                ++ "</EndofSession>" ++ nl ++ tab ++
               "</USSDResponse>").
Proof.
  intros Herr Hend Htype Hdata Hmenu.
  destruct (handleUSSDRequest_writes req w) as [Hdone Hwrites].
  assert (Hvalid : replyFrames req w =
            [fullMessage
               (messageXML (buildResponse req (Message apiResponse)
                                          (Continue apiResponse)))
               (RequestID req)]).
  { subst replyFrames resolver. unfold replies. rewrite Herr, Hend, Hmenu.
    rewrite (proj2 (String.eqb_neq _ _) Hdata).
    destruct Htype as [-> | ->]; reflexivity. }
  rewrite Hvalid in Hwrites.
  eexists _, _, (buildResponse req (Message apiResponse) (Continue apiResponse)).
  split; [exact Hdone |]. split; [exact Hwrites |].
  split; [unfold fullMessage; reflexivity |].
  split; [apply fullMessage_key |].
  destruct (Continue apiResponse); repeat split; reflexivity.
Qed.

(** C10. Every frame the handler writes is the header for the request's
    [requestId] followed by the XML text in which, when the resolver's
    decision is to continue, [msgtype] is 2 and [EndofSession] is 0, and,
    when it is not, [msgtype] is 6 and [EndofSession] is 1: no other
    [msgtype] goes out, and 6 never goes out with an open session. *)
Theorem handleUSSDRequest_msgtype (req : USSDRequest) (w : World) :
  exists frames,
    writes (trace (snd (handler req w))) = writes (trace w) ++ frames /\
    Forall
      (fun frame =>
         exists apiResponse header response,
           fst (resolver req w) = Done (inl apiResponse) /\
           frame = header ++ messageXML response /\
           resp_MsgType response = (if Continue apiResponse then 2 else 6)%Z /\
           resp_EndOfSession response = (if Continue apiResponse then 0 else 1)%Z /\
           header = createHeader (RequestID req)
                                 (int_wrap (len (messageXML response) + 32)) /\
           messageXML response =
             list_byte_of_string
               ("<USSDResponse>" ++ nl ++ tab ++
               "<requestId>" ++ RequestID req ++ "</requestId>" ++ nl ++ tab ++
               "<msisdn>" ++ MSISDN req ++ "</msisdn>" ++ nl ++ tab ++
               "<starCode>" ++ StarCode req ++ "</starCode>" ++ nl ++ tab ++
               "<clientId>" ++ ClientID req ++ "</clientId>" ++ nl ++ tab ++
               "<phase>" ++ Sprintf_d (Phase req) ++ "</phase>" ++ nl ++ tab ++
               "<dcs>" ++ Sprintf_d (DCS req) ++ "</dcs>" ++ nl ++ tab ++
               "<msgtype>" ++ (if Continue apiResponse then "2" else "6")
                           ++ "</msgtype>" ++ nl ++ tab ++
               "<userdata>" ++ Message apiResponse ++ "</userdata>" ++ nl ++ tab ++
               "<EndofSession>" ++ (if Continue apiResponse then "0" else "1")
                                ++ "</EndofSession>" ++ nl ++ tab ++
               "</USSDResponse>"))
      frames.
Proof.
  destruct (handleUSSDRequest_writes req w) as [_ Hwrites].
  exists (replyFrames req w). split; [exact Hwrites |].
  subst replyFrames resolver. unfold replies.
  destruct (_ && _); [| constructor].
  destruct (fst (getUssdMenu _ _ _ _ req w)) as [[apiResponse | err] | |] eqn:Hmenu;
    constructor; [| constructor].
  exists apiResponse.
  exists (createHeader (RequestID req)
            (int_wrap
               (len (messageXML (buildResponse req (Message apiResponse)
                                               (Continue apiResponse))) + 32))).
  exists (buildResponse req (Message apiResponse) (Continue apiResponse)).
  split; [reflexivity |]. split; [reflexivity |].
  destruct (Continue apiResponse); repeat split; reflexivity.
Qed.

End Responder.

(** ** Reading a response *)

(** What [readResponse] returns depends on the read side of the connection
    only. *)
Ltac run_io :=
  cbv [readResponse SetReadDeadline Read bind ret emit log fatal panic
       conn trace pending drained deadline_result write_results fst snd].

Lemma readResponse_read_side (w w' : World) :
  pending (conn w) = pending (conn w') ->
  drained (conn w) = drained (conn w') ->
  deadline_result (conn w) = deadline_result (conn w') ->
  fst (readResponse w) = fst (readResponse w').
Proof.
  destruct w as [[p d r wr] t], w' as [[p' d' r' wr'] t']. simpl.
  intros <- <- <-. run_io.
  destruct r; [reflexivity |].
  destruct p as [| run later].
  { destruct d; reflexivity. }
  destruct (Strconv.Atoi _) as [length | e]; [| reflexivity].
  destruct (length - 16 <? 0)%Z; [reflexivity |].
  destruct (Z.to_nat (length - 16)); [reflexivity |].
  destruct (skipn 19 run); [| reflexivity].
  destruct later; [destruct d |]; reflexivity.
Qed.

(** A header that [readResponse] returns without an error has 19 bytes. *)
Lemma readResponse_header_length (w : World) (header body : list byte) :
  fst (readResponse w) = Done (header, body, None) ->
  List.length header = 19%nat.
Proof.
  destruct w as [[p d r wr] t]. run_io.
  destruct r; [discriminate |].
  destruct p as [| run later].
  { destruct d; discriminate. }
  destruct (Strconv.Atoi _) as [length | e]; [| discriminate].
  destruct (length - 16 <? 0)%Z; [discriminate |].
  destruct (Z.to_nat (length - 16)).
  { intros [= <- _]. apply copy_length. }
  destruct (skipn 19 run).
  - destruct later; [destruct d; discriminate |].
    intros [= <- _]. apply copy_length.
  - intros [= <- _]. apply copy_length.
Qed.

(** [readResponse] writes nothing and leaves the write side as it is. *)
Lemma readResponse_write_side (w : World) :
  write_results (conn (snd (readResponse w))) = write_results (conn w) /\
  writes (trace (snd (readResponse w))) = writes (trace w).
Proof.
  destruct w as [[p d r wr] t]. run_io.
  destruct r; [observe; auto |].
  destruct p as [| run later].
  { destruct d; observe; auto. }
  destruct (Strconv.Atoi _) as [length | e]; [| observe; auto].
  destruct (length - 16 <? 0)%Z; [observe; auto |].
  destruct (Z.to_nat (length - 16)); [observe; auto |].
  destruct (skipn 19 run); [| observe; auto].
  destruct later; [destruct d |]; observe; auto.
Qed.

(** ** The main thread: logon, then the enquire-link ticker *)

Lemma keyField_of_header (header : list byte) :
  List.length header = 19%nat ->
  keyField (string_of_list_byte (firstn 16 header)) = firstn 16 header.
Proof.
  intros Hlen. unfold keyField, copy.
  rewrite list_byte_of_string_of_list_byte, make_length, firstn_firstn.
  rewrite length_firstn, Hlen. simpl. apply app_nil_r.
Qed.

Section MainThread.

Variable UnixNano : Z.
Variable dial_result : option error.
Variable cfg_Username cfg_Password cfg_ClientID : string.
Variable xml_Marshal_logon : LogonRequest -> list byte.
Variable xml_Marshal_enquire : EnquireLink -> list byte.

Let ticker := enquireLoop xml_Marshal_enquire.
Let mainThread :=
  main UnixNano dial_result cfg_Username cfg_Password cfg_ClientID
       xml_Marshal_logon xml_Marshal_enquire.

(** Every frame of the ticker loop is keyed by the session key it was
    given, and there is one per tick as long as the writes succeed. *)
Lemma enquireLoop_frames (ticks : nat) (sessionID : string) (w : World) :
  exists frames,
    writes (trace (snd (ticker ticks sessionID w))) = writes (trace w) ++ frames /\
    Forall (fun frame => frame = fullMessage (xml_Marshal_enquire mkEnquireLink) sessionID)
           frames /\
    (List.length frames <= ticks)%nat /\
    (Forall (eq None) (write_results (conn w)) -> List.length frames = ticks).
Proof.
  subst ticker. revert w.
  induction ticks as [| ticks IH]; intros w; simpl.
  - exists []. run. rewrite app_nil_r. auto.
  - run. rewrite sendMessage_eq. cbn [fst snd conn trace].
    destruct (nextWriteResult (conn w)) as [e |] eqn:Hres.
    + run. exists [fullMessage (xml_Marshal_enquire mkEnquireLink) sessionID].
      observe. repeat split; auto with arith.
      unfold nextWriteResult in Hres. intros Hall.
      destruct (write_results (conn w)) as [| r rest]; [discriminate |].
      inversion Hall; subst. discriminate.
    + match goal with
      | |- context [enquireLoop _ ticks sessionID ?w1] =>
          destruct (IH w1) as (frames & Hw & Hall & Hle & Hlen)
      end.
      exists (fullMessage (xml_Marshal_enquire mkEnquireLink) sessionID :: frames).
      rewrite Hw. observe. rewrite <- app_assoc. simpl.
      repeat split; auto with arith.
      intros Hok. f_equal. apply Hlen. simpl.
      destruct (write_results (conn w)) as [| r rest]; [constructor |].
      inversion Hok; assumption.
Qed.

(** C8. When the logon is sent and [readResponse] returns a header, the
    session key of [main] is the first 16 bytes of that header: the logon
    frame is keyed by the request identifier, and every frame the main
    thread writes after it is an enquire-link frame whose first 16 bytes
    are those of the header, for any number of ticks; none is missing
    while the writes succeed. *)
Theorem main_keepalive_session_key
    (ticks : nat) (w : World) (header body : list byte) :
  dial_result = None ->
  nextWriteResult (conn w) = None ->
  fst (readResponse w) = Done (header, body, None) ->
  exists logonFrame keepalives,
    writes (trace (snd (mainThread ticks w))) =
      writes (trace w) ++ logonFrame :: keepalives /\
    firstn 16 logonFrame = keyField (generateRequestID UnixNano) /\
    Forall (fun frame =>
              firstn 16 frame = firstn 16 header /\
              frame = fullMessage (xml_Marshal_enquire mkEnquireLink)
                                  (string_of_list_byte (firstn 16 header)))
           keepalives /\
    (List.length keepalives <= ticks)%nat /\
    (Forall (eq None) (write_results (conn w)) ->
     List.length keepalives = ticks).
Proof.
  intros Hdial Hsend Hread. subst mainThread. unfold main.
  rewrite Hdial. run. rewrite sendMessage_eq. cbn [fst snd conn trace].
  rewrite Hsend. run.
  match goal with
  | |- context [readResponse ?w1] =>
      assert (Hsame : fst (readResponse w1) = Done (header, body, None))
        by (rewrite <- Hread; apply readResponse_read_side; reflexivity);
      pose proof (readResponse_write_side w1) as [Hwr Hquiet];
      destruct (readResponse w1) as [r w2] eqn:Hrun
  end.
  simpl in Hsame, Hwr, Hquiet. subst r. run.
  match goal with
  | |- context [enquireLoop _ ticks ?sid ?w3] =>
      destruct (enquireLoop_frames ticks sid w3)
        as (frames & Hw & Hall & Hle & Hlen)
  end.
  subst ticker. cbv beta in Hw. rewrite Hw. clear Hw.
  simpl in Hlen. rewrite Hwr in Hlen.
  eexists _, frames. split.
  { observe. rewrite Hquiet. observe. rewrite <- !app_assoc. reflexivity. }
  split; [apply fullMessage_key |].
  split.
  { apply Forall_impl with (2 := Hall). intros frame ->.
    split; [| reflexivity].
    rewrite fullMessage_key. apply keyField_of_header.
    apply (readResponse_header_length w _ body). exact Hread. }
  split; [exact Hle |].
  intros Hok. apply Hlen.
  destruct (write_results (conn w)) as [| r rest]; [constructor |].
  inversion Hok; assumption.
Qed.

End MainThread.

(** ** The codec: what is written and what is read back *)

Lemma list_byte_of_string_length (s : string) :
  List.length (list_byte_of_string s) = String.length s.
Proof.
  unfold list_byte_of_string. rewrite length_map.
  induction s as [| a s IH]; simpl; [| rewrite IH]; reflexivity.
Qed.

Lemma copy_same_length (dst src : list byte) :
  List.length src = List.length dst -> copy dst src = src.
Proof.
  intros Hlen. unfold copy. rewrite <- Hlen, firstn_all.
  rewrite skipn_all2 by lia. apply app_nil_r.
Qed.

Lemma skipn_make (k n : nat) : skipn k (make n) = make (n - k).
Proof.
  unfold make. revert k.
  induction n as [| n IH]; intros [| k]; simpl; auto.
Qed.

Lemma copy_short (n : nat) (src : list byte) :
  (List.length src <= n)%nat ->
  copy (make n) src = src ++ make (n - List.length src).
Proof.
  intros Hle. unfold copy.
  rewrite make_length, firstn_all2 by exact Hle.
  rewrite skipn_make. reflexivity.
Qed.

(** The three digits of a length that fits them, and their way back
    through [Atoi]: checked on each of the thousand values. *)
Lemma Sprintf_03d_Atoi (n : Z) :
  (0 <= n <= 999)%Z ->
  String.length (Sprintf_0d 3 n) = 3%nat /\
  Strconv.Atoi (Sprintf_0d 3 n) = inl n.
Proof.
  intros Hn.
  assert (Hall :
    forallb (fun k =>
               (String.length (Sprintf_0d 3 (Z.of_nat k)) =? 3)%nat &&
               match Strconv.Atoi (Sprintf_0d 3 (Z.of_nat k)) with
               | inl m => (m =? Z.of_nat k)%Z
               | inr _ => false
               end)
            (seq 0 1000) = true) by (vm_compute; reflexivity).
  rewrite forallb_forall in Hall.
  specialize (Hall (Z.to_nat n)).
  rewrite Z2Nat.id in Hall by lia.
  assert (Hin : In (Z.to_nat n) (seq 0 1000)) by (apply in_seq; lia).
  apply Hall in Hin. apply andb_prop in Hin as [Hlen Hback].
  split; [apply Nat.eqb_eq; exact Hlen |].
  destruct (Strconv.Atoi _) as [m | e]; [| discriminate].
  apply Z.eqb_eq in Hback. subst m. reflexivity.
Qed.

Lemma int_wrap_small (z : Z) : (0 <= z <= 999)%Z -> int_wrap z = z.
Proof.
  intros Hz. unfold int_wrap. rewrite Z.mod_small; lia.
Qed.

(** The header of a frame whose length fits three digits: the key field,
    the digits, and thirteen bytes that stay as [make] left them. *)
Lemma createHeader_layout (sessionID : string) (length : Z) :
  (0 <= length <= 999)%Z ->
  createHeader sessionID length =
  keyField sessionID ++ list_byte_of_string (Sprintf_0d 3 length) ++ make 13.
Proof.
  intros Hfit. destruct (Sprintf_03d_Atoi length Hfit) as [Hlen _].
  unfold createHeader, keyField.
  change (firstn 16 (make 32)) with (make 16).
  change (skipn 16 (make 32)) with (make 16).
  f_equal. rewrite copy_short; rewrite list_byte_of_string_length, Hlen.
  - reflexivity.
  - auto with arith.
Qed.

Lemma fullMessage_layout (message : list byte) (sessionID : string) :
  (len message + 32 <= 999)%Z ->
  fullMessage message sessionID =
  keyField sessionID
    ++ list_byte_of_string (Sprintf_0d 3 (len message + 32))
    ++ make 13 ++ message.
Proof.
  intros Hfit. unfold fullMessage.
  assert (Hrange : (0 <= len message + 32 <= 999)%Z) by (unfold len in *; lia).
  rewrite int_wrap_small, createHeader_layout by exact Hrange.
  rewrite <- !app_assoc. reflexivity.
Qed.

(** C1. The frame [sendMessage] writes does not have the 19-byte header:
    for every payload whose length fits the field, the bytes handed to
    [conn.Write] are the 16-byte key field, the three digits of
    [len(payload)+32], thirteen NUL bytes and then the payload, so the
    header is 32 bytes long and its length field counts 32 for it. *)
Theorem sendMessage_writes_32_byte_header
    (message : list byte) (sessionID : string) (w : World) :
  (len message + 32 <= 999)%Z ->
  exists header,
    writes (trace (snd (sendMessage message sessionID w))) =
      writes (trace w) ++ [header ++ message] /\
    header = keyField sessionID
               ++ list_byte_of_string (Sprintf_0d 3 (len message + 32))
               ++ make 13 /\
    List.length header = 32%nat.
Proof.
  intros Hfit.
  exists (createHeader sessionID (int_wrap (len message + 32))).
  rewrite sendMessage_eq. observe.
  split; [reflexivity |].
  split; [| apply createHeader_length].
  assert (Hrange : (0 <= len message + 32 <= 999)%Z) by (unfold len in *; lia).
  rewrite int_wrap_small by exact Hrange.
  apply createHeader_layout. exact Hrange.
Qed.

Lemma firstn_exact {A} (l r : list A) (n : nat) :
  List.length l = n -> firstn n (l ++ r) = l.
Proof.
  intros <-. rewrite firstn_app, Nat.sub_diag, firstn_all. apply app_nil_r.
Qed.

Lemma skipn_exact {A} (l r : list A) (n : nat) :
  List.length l = n -> skipn n (l ++ r) = r.
Proof.
  intros <-. rewrite skipn_app, Nat.sub_diag, skipn_all. reflexivity.
Qed.

(** A [Read] into a buffer of [n > 0] bytes when a run is pending. *)
Lemma Read_run (n : nat) (b : byte) (run : list byte) (later : list (list byte))
    (d : error) (r : option error) (wr : list (option error)) (t : list event) :
  n <> 0%nat ->
  Read n (mkWorld (mkConn ((b :: run) :: later) d r wr) t) =
  (Done (firstn n (b :: run), None),
   mkWorld (mkConn (match skipn n (b :: run) with
                    | [] => later
                    | _ :: _ => skipn n (b :: run) :: later
                    end) d r wr)
           (t ++ [EvRead n (firstn n (b :: run)) None])).
Proof.
  intros Hn. destruct n as [| n]; [contradiction |]. reflexivity.
Qed.

(** C4. A short read is not an error: when the header declares [L] and the
    next run on the connection has some bytes but fewer than [L - 16],
    [readResponse] returns without an error, with a body of [L - 16] bytes
    that is the run followed by the NUL bytes the buffer started with. *)
Theorem readResponse_short_read_succeeds
    (header : list byte) (b : byte) (run : list byte) (later : list (list byte))
    (d : error) (wr : list (option error)) (t : list event) (L : Z) :
  List.length header = 19%nat ->
  Strconv.Atoi (string_of_list_byte (skipn 16 header)) = inl L ->
  (len (b :: run) < L - 16)%Z ->
  fst (readResponse (mkWorld (mkConn (header :: (b :: run) :: later) d None wr) t)) =
  Done (header,
        (b :: run) ++ make (Z.to_nat (L - 16) - List.length (b :: run)),
        None).
Proof.
  intros Hlen Hatoi Hshort.
  destruct header as [| h0 header]; [discriminate |].
  unfold readResponse. run. cbv [SetReadDeadline].
  cbv [conn trace deadline_result fst snd].
  rewrite Read_run by discriminate.
  cbv [fst snd].
  rewrite firstn_all2 by lia.
  rewrite copy_same_length by (rewrite make_length; exact Hlen).
  rewrite Hatoi.
  destruct (Z.ltb_spec (L - 16) 0) as [Hneg | Hpos].
  { unfold len in Hshort. lia. }
  rewrite skipn_all2 by lia.
  cbv [conn trace deadline_result fst snd].
  rewrite Read_run by (unfold len in Hshort; simpl in Hshort; lia).
  cbv [conn trace deadline_result fst snd].
  rewrite firstn_all2 by (unfold len in Hshort; lia).
  rewrite copy_short by (unfold len in Hshort; lia).
  reflexivity.
Qed.

(** C2. The round trip does not give the payload back: for every key and
    every payload whose length fits the field, reading back what
    [sendMessage] wrote succeeds with the 19 bytes of key field and digits
    as header and, as body, thirteen NUL bytes, the payload and three more
    NUL bytes, which is not the payload. *)
Theorem roundTrip_body_is_not_payload (sessionKey : string) (payload : list byte) :
  (len payload + 32 <= 999)%Z ->
  roundTrip sessionKey payload =
    Done (keyField sessionKey
            ++ list_byte_of_string (Sprintf_0d 3 (len payload + 32)),
          make 13 ++ payload ++ make 3,
          None) /\
  make 13 ++ payload ++ make 3 <> payload.
Proof.
  intros Hfit.
  assert (Hrange : (0 <= len payload + 32 <= 999)%Z) by (unfold len in *; lia).
  destruct (Sprintf_03d_Atoi _ Hrange) as [Hdigits Hatoi].
  split.
  2: { intros Heq. apply (f_equal (@List.length byte)) in Heq.
       rewrite !length_app, !make_length in Heq. lia. }
  unfold roundTrip.
  replace (writes (trace (snd (sendMessage payload sessionKey (mkWorld idle [])))))
    with [fullMessage payload sessionKey]
    by (rewrite sendMessage_eq; reflexivity).
  rewrite fullMessage_layout by exact Hfit.
  set (K := keyField sessionKey).
  set (D := list_byte_of_string (Sprintf_0d 3 (len payload + 32))).
  assert (HK : List.length K = 16%nat)
    by (unfold K, keyField; rewrite copy_length; apply make_length).
  assert (HD : List.length D = 3%nat)
    by (unfold D; rewrite list_byte_of_string_length; exact Hdigits).
  assert (HKD : List.length (K ++ D) = 19%nat)
    by (rewrite length_app, HK, HD; reflexivity).
  rewrite (app_assoc K D).
  destruct (K ++ D) as [| k0 KD] eqn:HeqKD; [discriminate |].
  unfold readResponse. run. cbv [SetReadDeadline].
  cbv [conn trace deadline_result fst snd].
  change ((k0 :: KD) ++ make 13 ++ payload)
    with (k0 :: (KD ++ make 13 ++ payload)).
  rewrite Read_run by discriminate.
  change (k0 :: (KD ++ make 13 ++ payload))
    with ((k0 :: KD) ++ make 13 ++ payload).
  rewrite (firstn_exact _ _ 19 HKD), (skipn_exact _ _ 19 HKD).
  cbv [fst snd conn trace].
  rewrite copy_same_length by (rewrite make_length; exact HKD).
  rewrite <- HeqKD, (skipn_exact _ _ 16 HK).
  unfold D at 1. rewrite string_of_list_byte_of_string, Hatoi.
  destruct (Z.ltb_spec (len payload + 32 - 16) 0) as [Hneg | Hpos].
  { unfold len in Hneg. lia. }
  change (make 13 ++ payload) with ("000"%byte :: make 12 ++ payload).
  cbv iota. cbv [conn trace deadline_result fst snd].
  rewrite Read_run by (unfold len; lia).
  cbv [conn trace deadline_result fst snd].
  change ("000"%byte :: make 12 ++ payload) with (make 13 ++ payload).
  rewrite firstn_all2
    by (rewrite length_app, make_length; unfold len; lia).
  rewrite copy_short
    by (rewrite length_app, make_length; unfold len; lia).
  rewrite length_app, make_length.
  replace (Z.to_nat (len payload + 32 - 16) - (13 + List.length payload))%nat
    with 3%nat by (unfold len; lia).
  rewrite <- app_assoc. reflexivity.
Qed.

(** ** The theorems at the scenarios of the specification *)

Lemma sendMessage_writes_32_byte_header_witness :
  (len Scenario.enquiry + 32 <= 999)%Z /\
  exists header,
    writes (trace (snd (sendMessage Scenario.enquiry "SESSIONKEY000001" Scenario.start))) =
      writes (trace Scenario.start) ++ [header ++ Scenario.enquiry] /\
    header = keyField "SESSIONKEY000001"
               ++ list_byte_of_string (Sprintf_0d 3 (len Scenario.enquiry + 32))
               ++ make 13 /\
    List.length header = 32%nat.
Proof.
  assert (H : (len Scenario.enquiry + 32 <= 999)%Z) by (vm_compute; discriminate).
  split; [exact H |].
  apply (sendMessage_writes_32_byte_header
           Scenario.enquiry "SESSIONKEY000001" Scenario.start H).
Defined.

Lemma roundTrip_body_is_not_payload_witness :
  (len Scenario.enquiry + 32 <= 999)%Z /\
  roundTrip "SESSIONKEY000001" Scenario.enquiry =
    Done (keyField "SESSIONKEY000001"
            ++ list_byte_of_string (Sprintf_0d 3 (len Scenario.enquiry + 32)),
          make 13 ++ Scenario.enquiry ++ make 3,
          None) /\
  make 13 ++ Scenario.enquiry ++ make 3 <> Scenario.enquiry.
Proof.
  assert (H : (len Scenario.enquiry + 32 <= 999)%Z) by (vm_compute; discriminate).
  split; [exact H |].
  apply (roundTrip_body_is_not_payload "SESSIONKEY000001" Scenario.enquiry H).
Defined.

(** C3. An oversized payload is not refused.  When the payload is too
    long for a three-digit length (its length plus 19 is above 999) and
    its length plus 32 still has four digits, [sendMessage] builds the
    frame and hands it to [conn.Write] like any other, returning only what
    that [Write] returned; the length field of the frame then takes four
    bytes of the header, bytes 16 to 19, where the header was to hold
    three digits. *)
Theorem sendMessage_oversized_is_written
    (message : list byte) (sessionID : string) (w : World) :
  (len message + 19 > 999)%Z ->
  (len message + 32 <= 9999)%Z ->
  fst (sendMessage message sessionID w) = Done (nextWriteResult (conn w)) /\
  writes (trace (snd (sendMessage message sessionID w))) =
    writes (trace w) ++ [fullMessage message sessionID] /\
  skipn 32 (fullMessage message sessionID) = message /\
  String.length (Sprintf_0d 3 (len message + 32)) = 4%nat /\
  firstn 20 (fullMessage message sessionID) =
    keyField sessionID ++ list_byte_of_string (Sprintf_0d 3 (len message + 32)).
Proof.
  intros Hbig Hfit.
  assert (Hrange : (1000 <= len message + 32 <= 9999)%Z) by lia.
  assert (Hfour : String.length (Sprintf_0d 3 (len message + 32)) = 4%nat).
  { assert (Hall :
      forallb (fun k => (String.length (Sprintf_0d 3 (Z.of_nat k)) =? 4)%nat)
              (seq 1000 (9 * 1000)) = true) by (vm_compute; reflexivity).
    rewrite forallb_forall in Hall.
    specialize (Hall (Z.to_nat (len message + 32))).
    rewrite Z2Nat.id in Hall by lia.
    apply Nat.eqb_eq, Hall, in_seq. lia. }
  rewrite sendMessage_eq. cbn [fst snd conn trace].
  split; [reflexivity |].
  split; [rewrite !writes_app; simpl; rewrite ?app_nil_r; reflexivity |].
  split; [apply fullMessage_payload |].
  split; [exact Hfour |].
  unfold fullMessage.
  assert (Hwrap : int_wrap (len message + 32) = (len message + 32)%Z)
    by (unfold int_wrap; rewrite Z.mod_small; lia).
  rewrite Hwrap.
  change (createHeader sessionID (len message + 32))
    with (keyField sessionID
            ++ copy (make 16)
                 (list_byte_of_string (Sprintf_0d 3 (len message + 32)))).
  rewrite copy_short by (rewrite list_byte_of_string_length, Hfour; lia).
  rewrite <- !app_assoc, (app_assoc (keyField sessionID)).
  apply firstn_exact.
  rewrite length_app, list_byte_of_string_length, Hfour.
  unfold keyField. rewrite copy_length, make_length. reflexivity.
Qed.

Lemma sendMessage_oversized_is_written_witness :
  (len Scenario.oversized + 19 > 999)%Z /\
  (len Scenario.oversized + 32 <= 9999)%Z /\
  fst (sendMessage Scenario.oversized "R1" Scenario.start) =
    Done (nextWriteResult (conn Scenario.start)) /\
  writes (trace (snd (sendMessage Scenario.oversized "R1" Scenario.start))) =
    writes (trace Scenario.start) ++ [fullMessage Scenario.oversized "R1"] /\
  skipn 32 (fullMessage Scenario.oversized "R1") = Scenario.oversized /\
  String.length (Sprintf_0d 3 (len Scenario.oversized + 32)) = 4%nat /\
  firstn 20 (fullMessage Scenario.oversized "R1") =
    keyField "R1"
      ++ list_byte_of_string (Sprintf_0d 3 (len Scenario.oversized + 32)).
Proof.
  assert (H1 : (len Scenario.oversized + 19 > 999)%Z)
    by (vm_compute; reflexivity).
  assert (H2 : (len Scenario.oversized + 32 <= 9999)%Z)
    by (vm_compute; discriminate).
  split; [exact H1 |]. split; [exact H2 |].
  exact (sendMessage_oversized_is_written
           Scenario.oversized "R1" Scenario.start H1 H2).
Defined.

(** The oversized payload of 981 bytes, run: no error, and the four bytes
    [1013] where the length goes. *)
Example oversized_scenario_frame :
  fst (sendMessage Scenario.oversized "R1" Scenario.start) = Done None /\
  string_of_list_byte
    (skipn 16 (firstn 20 (fullMessage Scenario.oversized "R1"))) = "1013" /\
  List.length (fullMessage Scenario.oversized "R1") = 1013%nat.
Proof. vm_compute. repeat split; reflexivity. Qed.

Lemma readResponse_short_read_succeeds_witness :
  List.length Scenario.shortHeader = 19%nat /\
  Strconv.Atoi (string_of_list_byte (skipn 16 Scenario.shortHeader)) = inl 25%Z /\
  (len Scenario.shortBody < 25 - 16)%Z /\
  fst (readResponse
         (mkWorld (mkConn [Scenario.shortHeader; Scenario.shortBody] ErrTimeout None []) [])) =
  Done (Scenario.shortHeader, Scenario.shortBody ++ make 5, None).
Proof.
  assert (H1 : List.length Scenario.shortHeader = 19%nat) by reflexivity.
  assert (H2 : Strconv.Atoi (string_of_list_byte (skipn 16 Scenario.shortHeader))
               = inl 25%Z) by (vm_compute; reflexivity).
  assert (H3 : (len Scenario.shortBody < 25 - 16)%Z) by (vm_compute; reflexivity).
  split; [exact H1 |]. split; [exact H2 |]. split; [exact H3 |].
  exact (readResponse_short_read_succeeds
           Scenario.shortHeader "<"%byte (list_byte_of_string "a/>") []
           ErrTimeout [] [] 25 H1 H2 H3).
Defined.

Lemma handleUSSDRequest_error_or_ended_no_frame_witness :
  (ErrorCode Scenario.endedRequest <> "" \/ EndOfSession Scenario.endedRequest = 1%Z) /\
  exists w',
    handleUSSDRequest Scenario.getenv Scenario.json_Marshal Scenario.json_Unmarshal
                      Scenario.http_Post Scenario.endedRequest Scenario.start
      = (Done tt, w') /\
    conn w' = conn Scenario.start /\
    writes (trace w') = writes (trace Scenario.start) /\
    calls "getUssdMenu" (trace w') = calls "getUssdMenu" (trace Scenario.start).
Proof.
  assert (H : ErrorCode Scenario.endedRequest <> ""
              \/ EndOfSession Scenario.endedRequest = 1%Z)
    by (right; reflexivity).
  split; [exact H |].
  exact (handleUSSDRequest_error_or_ended_no_frame
           Scenario.getenv Scenario.json_Marshal Scenario.json_Unmarshal
           Scenario.http_Post Scenario.endedRequest Scenario.start H).
Defined.

Lemma handleUSSDRequest_invalid_no_frame_no_resolver_witness :
  ErrorCode Scenario.badTypeRequest = "" /\
  EndOfSession Scenario.badTypeRequest = 0%Z /\
  ((MsgType Scenario.badTypeRequest <> 1%Z /\ MsgType Scenario.badTypeRequest <> 4%Z)
   \/ UserData Scenario.badTypeRequest = "") /\
  exists w',
    handleUSSDRequest Scenario.getenv Scenario.json_Marshal Scenario.json_Unmarshal
                      Scenario.http_Post Scenario.badTypeRequest Scenario.start
      = (Done tt, w') /\
    conn w' = conn Scenario.start /\
    writes (trace w') = writes (trace Scenario.start) /\
    calls "getUssdMenu" (trace w') = calls "getUssdMenu" (trace Scenario.start) /\
    posts (trace w') = posts (trace Scenario.start).
Proof.
  assert (H1 : ErrorCode Scenario.badTypeRequest = "") by reflexivity.
  assert (H2 : EndOfSession Scenario.badTypeRequest = 0%Z) by reflexivity.
  assert (H3 : (MsgType Scenario.badTypeRequest <> 1%Z
                /\ MsgType Scenario.badTypeRequest <> 4%Z)
               \/ UserData Scenario.badTypeRequest = "")
    by (left; split; discriminate).
  split; [exact H1 |]. split; [exact H2 |]. split; [exact H3 |].
  exact (handleUSSDRequest_invalid_no_frame_no_resolver
           Scenario.getenv Scenario.json_Marshal Scenario.json_Unmarshal
           Scenario.http_Post Scenario.badTypeRequest Scenario.start H1 H2 H3).
Defined.

Lemma handleUSSDRequest_reply_witness :
  let resolver := getUssdMenu Scenario.getenv Scenario.json_Marshal
                              Scenario.json_Unmarshal Scenario.http_Post in
  let handler := handleUSSDRequest Scenario.getenv Scenario.json_Marshal
                                   Scenario.json_Unmarshal Scenario.http_Post in
  let req := Scenario.menuRequest in
  let w := Scenario.start in
  let apiResponse := {| Message := "Menu text"; Continue := true |} in
  ErrorCode req = "" /\
  EndOfSession req = 0%Z /\
  (MsgType req = 1%Z \/ MsgType req = 4%Z) /\
  UserData req <> "" /\
  fst (resolver req w) = Done (inl apiResponse) /\
  exists frame header response,
    fst (handler req w) = Done tt /\
    writes (trace (snd (handler req w))) = writes (trace w) ++ [frame] /\
    frame = header ++ messageXML response /\
    firstn 16 frame = keyField (RequestID req) /\
    resp_RequestID response = RequestID req /\
    resp_MSISDN response = MSISDN req /\
    resp_StarCode response = StarCode req /\
    resp_ClientID response = ClientID req /\
    resp_Phase response = Phase req /\
    resp_DCS response = DCS req /\
    resp_UserData response = Message apiResponse /\
    resp_EndOfSession response = (if Continue apiResponse then 0 else 1)%Z /\
    header = createHeader (RequestID req)
                          (int_wrap (len (messageXML response) + 32)) /\
    messageXML response =
      list_byte_of_string
        ("<USSDResponse>" ++ nl ++ tab ++
               "<requestId>" ++ RequestID req ++ "</requestId>" ++ nl ++ tab ++
               "<msisdn>" ++ MSISDN req ++ "</msisdn>" ++ nl ++ tab ++
               "<starCode>" ++ StarCode req ++ "</starCode>" ++ nl ++ tab ++
               "<clientId>" ++ ClientID req ++ "</clientId>" ++ nl ++ tab ++
               "<phase>" ++ Sprintf_d (Phase req) ++ "</phase>" ++ nl ++ tab ++
               "<dcs>" ++ Sprintf_d (DCS req) ++ "</dcs>" ++ nl ++ tab ++
               "<msgtype>" ++ (if Continue apiResponse then "2" else "6")
                           ++ "</msgtype>" ++ nl ++ tab ++
               "<userdata>" ++ Message apiResponse ++ "</userdata>" ++ nl ++ tab ++
               "<EndofSession>" ++ (if Continue apiResponse then "0" else "1")
                                ++ "</EndofSession>" ++ nl ++ tab ++
               "</USSDResponse>").
Proof.
  intros resolver handler req w apiResponse.
  assert (H1 : ErrorCode req = "") by reflexivity.
  assert (H2 : EndOfSession req = 0%Z) by reflexivity.
  assert (H3 : MsgType req = 1%Z \/ MsgType req = 4%Z) by (left; reflexivity).
  assert (H4 : UserData req <> "") by discriminate.
  assert (H5 : fst (resolver req w) = Done (inl apiResponse)) by reflexivity.
  split; [exact H1 |]. split; [exact H2 |]. split; [exact H3 |].
  split; [exact H4 |]. split; [exact H5 |].
  exact (handleUSSDRequest_reply
           Scenario.getenv Scenario.json_Marshal Scenario.json_Unmarshal
           Scenario.http_Post req w apiResponse H1 H2 H3 H4 H5).
Defined.

Lemma main_keepalive_session_key_witness :
  let mainThread :=
    main 1000000 None "u" "p" "12345"
         Scenario.xml_Marshal_logon Scenario.xml_Marshal_enquire in
  let w := Scenario.afterDial in
  @None error = None /\
  nextWriteResult (conn w) = None /\
  fst (readResponse w) = Done (Scenario.logonHeader, Scenario.logonBody, None) /\
  exists logonFrame keepalives,
    writes (trace (snd (mainThread 3%nat w))) =
      writes (trace w) ++ logonFrame :: keepalives /\
    firstn 16 logonFrame = keyField (generateRequestID 1000000) /\
    Forall (fun frame =>
              firstn 16 frame = firstn 16 Scenario.logonHeader /\
              frame = fullMessage (Scenario.xml_Marshal_enquire mkEnquireLink)
                        (string_of_list_byte (firstn 16 Scenario.logonHeader)))
           keepalives /\
    (List.length keepalives <= 3)%nat /\
    (Forall (eq None) (write_results (conn w)) ->
     List.length keepalives = 3%nat).
Proof.
  intros mainThread w.
  assert (H1 : @None error = None) by reflexivity.
  assert (H2 : nextWriteResult (conn w) = None) by reflexivity.
  assert (H3 : fst (readResponse w)
               = Done (Scenario.logonHeader, Scenario.logonBody, None))
    by (vm_compute; reflexivity).
  split; [exact H1 |]. split; [exact H2 |]. split; [exact H3 |].
  exact (main_keepalive_session_key
           1000000%Z None "u" "p" "12345"
           Scenario.xml_Marshal_logon Scenario.xml_Marshal_enquire
           3%nat w Scenario.logonHeader Scenario.logonBody H1 H2 H3).
Defined.

(** The logon scenario of the specification, run: the logon frame is keyed
    by the request identifier [0000000001], the two keepalives that follow
    by [SESSIONKEY000001]. *)
Example main_scenario_keys :
  map (fun frame => string_of_list_byte (firstn 16 frame))
      (writes (trace (snd (main 1000000 None "u" "p" "12345"
                                Scenario.xml_Marshal_logon
                                Scenario.xml_Marshal_enquire
                                2%nat Scenario.afterDial)))) =
  [string_of_list_byte (keyField "0000000001");
   "SESSIONKEY000001"; "SESSIONKEY000001"].
Proof. vm_compute. reflexivity. Qed.

(** The reply scenario of the specification, run: one frame, keyed [R1],
    with [Menu text] as user data, message type 2 and the session left
    open. *)
Example reply_scenario_frame :
  writes (trace (snd (handleUSSDRequest
                        Scenario.getenv Scenario.json_Marshal
                        Scenario.json_Unmarshal Scenario.http_Post
                        Scenario.menuRequest Scenario.start))) =
  [keyField "R1" ++ list_byte_of_string "295" ++ make 13 ++
   list_byte_of_string
     ("<USSDResponse>" ++ nl ++ tab ++
      "<requestId>R1</requestId>" ++ nl ++ tab ++
      "<msisdn>2348011112222</msisdn>" ++ nl ++ tab ++
      "<starCode>123</starCode>" ++ nl ++ tab ++
      "<clientId>12345</clientId>" ++ nl ++ tab ++
      "<phase>2</phase>" ++ nl ++ tab ++
      "<dcs>15</dcs>" ++ nl ++ tab ++
      "<msgtype>2</msgtype>" ++ nl ++ tab ++
      "<userdata>Menu text</userdata>" ++ nl ++ tab ++
      "<EndofSession>0</EndofSession>" ++ nl ++ tab ++
      "</USSDResponse>")].
Proof. vm_compute. reflexivity. Qed.

(** ** More on the header *)

Lemma reads_app (t u : list event) : reads (t ++ u) = (reads t + reads u)%nat.
Proof.
  induction t as [| e t IH]; simpl; [reflexivity |].
  destruct e; simpl; rewrite IH; reflexivity.
Qed.

Lemma started_app (t u : list event) : started (t ++ u) = started t ++ started u.
Proof.
  induction t as [| e t IH]; simpl; [reflexivity |].
  destruct e; simpl; rewrite IH; reflexivity.
Qed.

Lemma deadlines_app (t u : list event) :
  deadlines (t ++ u) = deadlines t ++ deadlines u.
Proof.
  induction t as [| e t IH]; simpl; [reflexivity |].
  destruct e; simpl; rewrite IH; reflexivity.
Qed.

(** X1. Whatever the session identifier and the length, the header has 32
    bytes and its first 16 are the first 16 bytes of the identifier,
    followed by NUL bytes when the identifier is shorter: a longer
    identifier is cut without notice. *)
Theorem createHeader_key_cut_or_padded (sessionID : string) (length : Z) :
  List.length (createHeader sessionID length) = 32%nat /\
  firstn 16 (createHeader sessionID length) =
    firstn 16 (list_byte_of_string sessionID)
      ++ make (16 - String.length sessionID).
Proof.
  split; [apply createHeader_length |].
  rewrite createHeader_key. unfold keyField, copy.
  rewrite make_length, skipn_make, list_byte_of_string_length. reflexivity.
Qed.

(** The header in two halves, for any length. *)
Lemma createHeader_halves (sessionID : string) (length : Z) :
  createHeader sessionID length =
  keyField sessionID ++ copy (make 16) (list_byte_of_string (Sprintf_0d 3 length)).
Proof. reflexivity. Qed.

(** X2. A frame of 1000 to 9999 bytes gets four digits in its header, and
    the 19 bytes that [readResponse] takes as header then hold only the
    first three: parsed as it parses them, they declare a tenth of the
    length. *)
Theorem fullMessage_four_digits_misread (message : list byte) (sessionID : string) :
  (1000 <= len message + 32 <= 9999)%Z ->
  Strconv.Atoi
    (string_of_list_byte (skipn 16 (firstn 19 (fullMessage message sessionID)))) =
  inl ((len message + 32) / 10)%Z.
Proof.
  intros Hrange. unfold fullMessage.
  set (n := (len message + 32)%Z) in *.
  assert (Hwrap : int_wrap n = n)
    by (unfold int_wrap; rewrite Z.mod_small; lia).
  rewrite Hwrap, createHeader_halves.
  assert (HK : List.length (keyField sessionID) = 16%nat)
    by (unfold keyField; rewrite copy_length; apply make_length).
  rewrite <- app_assoc, firstn_app, HK.
  rewrite (firstn_all2 (n := 19) (keyField sessionID)) by lia.
  rewrite (skipn_exact _ _ 16 HK).
  change (19 - 16)%nat with 3%nat.
  rewrite firstn_app, copy_length, make_length.
  change (3 - 16)%nat with 0%nat. rewrite firstn_O, app_nil_r.
  assert (Hall :
    forallb (fun k =>
               match Strconv.Atoi
                       (string_of_list_byte
                          (firstn 3 (copy (make 16)
                             (list_byte_of_string (Sprintf_0d 3 (Z.of_nat k))))))
               with
               | inl m => (m =? Z.of_nat k / 10)%Z
               | inr _ => false
               end)
            (seq 1000 (9 * 1000)) = true) by (vm_compute; reflexivity).
  rewrite forallb_forall in Hall.
  specialize (Hall (Z.to_nat n)).
  rewrite Z2Nat.id in Hall by lia.
  assert (Hin : In (Z.to_nat n) (seq 1000 (9 * 1000))) by (apply in_seq; lia).
  apply Hall in Hin.
  destruct (Strconv.Atoi _) as [m | e]; [| discriminate].
  apply Z.eqb_eq in Hin. subst m. reflexivity.
Qed.

(** ** More on reading *)

(** A whole frame at the head of the first run: the result and the
    connection afterwards. *)
Lemma readResponse_frame_run
    (header body rest : list byte) (later : list (list byte))
    (d : error) (wr : list (option error)) (t : list event) (L : Z) :
  List.length header = 19%nat ->
  Strconv.Atoi (string_of_list_byte (skipn 16 header)) = inl L ->
  len body = (L - 16)%Z ->
  exists t',
    readResponse
      (mkWorld (mkConn ((header ++ body ++ rest) :: later) d None wr) t) =
    (Done (header, body, None),
     mkWorld (mkConn (match rest with [] => later | _ :: _ => rest :: later end)
                     d None wr) t').
Proof.
  intros Hlen Hatoi Hbody.
  assert (Hsize : Z.to_nat (L - 16) = List.length body)
    by (unfold len in Hbody; lia).
  destruct header as [| h0 hd]; [discriminate |].
  unfold readResponse. run. cbv [SetReadDeadline].
  cbv [conn trace deadline_result fst snd].
  change ((h0 :: hd) ++ body ++ rest) with (h0 :: (hd ++ body ++ rest)).
  rewrite Read_run by discriminate.
  change (h0 :: (hd ++ body ++ rest)) with ((h0 :: hd) ++ body ++ rest).
  rewrite (firstn_exact _ _ 19 Hlen), (skipn_exact _ _ 19 Hlen).
  cbv [fst snd conn trace].
  rewrite copy_same_length by (rewrite make_length; exact Hlen).
  rewrite Hatoi.
  destruct (Z.ltb_spec (L - 16) 0) as [Hneg | Hpos].
  { unfold len in Hbody. lia. }
  rewrite Hsize.
  destruct body as [| b0 body].
  - simpl app. simpl List.length.
    destruct rest as [| r0 rest];
      cbv [Read conn trace pending drained deadline_result write_results fst snd];
      eexists; reflexivity.
  - change ((b0 :: body) ++ rest) with (b0 :: (body ++ rest)).
    cbv iota. cbv [conn trace deadline_result fst snd].
    rewrite Read_run by discriminate.
    change (b0 :: (body ++ rest)) with ((b0 :: body) ++ rest).
    rewrite (firstn_exact _ _ _ eq_refl), (skipn_exact _ _ _ eq_refl).
    cbv [fst snd conn trace pending drained deadline_result write_results].
    rewrite copy_same_length by (rewrite make_length; reflexivity).
    destruct rest; eexists; reflexivity.
Qed.

(** X3. A frame laid out as [readResponse] parses it (19 bytes of header
    whose digits declare [L], then [L - 16] bytes of body) that arrives in
    one run is returned whole, and exactly its [L + 3] bytes are taken from
    the connection: what follows it in the run stays pending for the next
    call. *)
Theorem readResponse_whole_frame
    (header body rest : list byte) (later : list (list byte))
    (d : error) (wr : list (option error)) (t : list event) (L : Z) :
  List.length header = 19%nat ->
  Strconv.Atoi (string_of_list_byte (skipn 16 header)) = inl L ->
  len body = (L - 16)%Z ->
  fst (readResponse
         (mkWorld (mkConn ((header ++ body ++ rest) :: later) d None wr) t)) =
    Done (header, body, None) /\
  pending (conn (snd (readResponse
         (mkWorld (mkConn ((header ++ body ++ rest) :: later) d None wr) t)))) =
    match rest with [] => later | _ :: _ => rest :: later end.
Proof.
  intros Hlen Hatoi Hbody.
  destruct (readResponse_frame_run header body rest later d wr t L
              Hlen Hatoi Hbody) as [t' ->].
  split; reflexivity.
Qed.

(** A header that declares less than 16, at the head of the first run. *)
Lemma readResponse_low_run
    (header rest : list byte) (later : list (list byte))
    (d : error) (wr : list (option error)) (t : list event) (L : Z) :
  List.length header = 19%nat ->
  Strconv.Atoi (string_of_list_byte (skipn 16 header)) = inl L ->
  (L < 16)%Z ->
  readResponse (mkWorld (mkConn ((header ++ rest) :: later) d None wr) t) =
  (Panic "makeslice: len out of range",
   mkWorld (mkConn (match rest with [] => later | _ :: _ => rest :: later end)
                   d None wr)
           (t ++ [EvSetReadDeadline (Some 5%nat); EvRead 19 header None;
                  EvSetReadDeadline None])).
Proof.
  intros Hlen Hatoi Hlow.
  destruct header as [| h0 hd]; [discriminate |].
  unfold readResponse. run. cbv [SetReadDeadline].
  cbv [conn trace deadline_result fst snd].
  change ((h0 :: hd) ++ rest) with (h0 :: (hd ++ rest)).
  rewrite Read_run by discriminate.
  change (h0 :: (hd ++ rest)) with ((h0 :: hd) ++ rest).
  rewrite (firstn_exact _ _ 19 Hlen), (skipn_exact _ _ 19 Hlen).
  cbv [fst snd conn trace].
  rewrite copy_same_length by (rewrite make_length; exact Hlen).
  rewrite Hatoi.
  destruct (Z.ltb_spec (L - 16) 0) as [Hneg | Hpos]; [| lia].
  cbv [fst snd conn trace pending drained deadline_result write_results].
  rewrite <- !app_assoc. destruct rest; reflexivity.
Qed.

(** X4. A header whose digits declare less than 16 makes [readResponse]
    panic on the negative size of the body buffer, after the header has
    been taken from the connection; the deferred call still clears the
    deadline. *)
Theorem readResponse_panics_below_16
    (header rest : list byte) (later : list (list byte))
    (d : error) (wr : list (option error)) (t : list event) (L : Z) :
  List.length header = 19%nat ->
  Strconv.Atoi (string_of_list_byte (skipn 16 header)) = inl L ->
  (L < 16)%Z ->
  fst (readResponse
         (mkWorld (mkConn ((header ++ rest) :: later) d None wr) t)) =
    Panic "makeslice: len out of range" /\
  pending (conn (snd (readResponse
         (mkWorld (mkConn ((header ++ rest) :: later) d None wr) t)))) =
    match rest with [] => later | _ :: _ => rest :: later end /\
  deadlines (trace (snd (readResponse
         (mkWorld (mkConn ((header ++ rest) :: later) d None wr) t)))) =
    deadlines t ++ [Some 5%nat; None].
Proof.
  intros Hlen Hatoi Hlow.
  rewrite (readResponse_low_run header rest later d wr t L Hlen Hatoi Hlow).
  cbn [fst snd conn trace pending].
  split; [reflexivity |]. split; [reflexivity |].
  rewrite deadlines_app. reflexivity.
Qed.

(** Three bytes that end with a NUL byte are not a number. *)
Lemma Atoi_trailing_NUL (x y : byte) :
  exists e,
    Strconv.Atoi (string_of_list_byte [x; y; "000"%byte]) = inr e.
Proof.
  unfold Strconv.Atoi. rewrite list_byte_of_string_of_list_byte.
  destruct (Byte.eqb x "-" || Byte.eqb x "+"); simpl Strconv.accumulate.
  - destruct (Byte.eqb x "-"); destruct (Strconv.digit_of y);
      eexists; reflexivity.
  - destruct (Byte.eqb x "-"); destruct (Strconv.digit_of x);
      destruct (Strconv.digit_of y); eexists; reflexivity.
Qed.

Lemma make_snoc (n : nat) : make (S n) = make n ++ ["000"%byte].
Proof.
  unfold make. induction n as [| n IH]; [reflexivity |].
  simpl in *. rewrite <- IH. reflexivity.
Qed.

(** X5. When the first run on the connection has fewer than 19 bytes,
    [readResponse] takes it whole, finds no number in the last three bytes
    of its header buffer and returns an "invalid message length" error:
    the bytes taken are lost and the body is not read. *)
Theorem readResponse_short_header
    (b : byte) (run : list byte) (later : list (list byte))
    (d : error) (wr : list (option error)) (t : list event) :
  (List.length (b :: run) < 19)%nat ->
  (exists e,
     fst (readResponse (mkWorld (mkConn ((b :: run) :: later) d None wr) t)) =
       Done ([], [], Some (Errorf "invalid message length: %v" (Some e)))) /\
  pending (conn (snd (readResponse
     (mkWorld (mkConn ((b :: run) :: later) d None wr) t)))) = later /\
  reads (trace (snd (readResponse
     (mkWorld (mkConn ((b :: run) :: later) d None wr) t)))) = S (reads t).
Proof.
  intros Hshort.
  unfold readResponse. run. cbv [SetReadDeadline].
  cbv [conn trace deadline_result fst snd].
  rewrite Read_run by discriminate.
  rewrite (firstn_all2 (n := 19) (b :: run)) by lia.
  rewrite (skipn_all2 (n := 19) (b :: run)) by lia.
  cbv [fst snd conn trace].
  rewrite copy_short by lia.
  assert (Htail : exists x y,
             skipn 16 ((b :: run) ++ make (19 - List.length (b :: run))) =
             [x; y; "000"%byte]).
  { remember (b :: run) as r eqn:Hr. clear Hr.
    replace (19 - List.length r)%nat with (S (18 - List.length r)) by lia.
    rewrite make_snoc, app_assoc.
    set (a := r ++ make (18 - List.length r)).
    assert (Ha : List.length a = 18%nat)
      by (unfold a; rewrite length_app, make_length; lia).
    rewrite skipn_app, Ha. change (16 - 18)%nat with 0%nat. simpl skipn at 2.
    assert (H2 : List.length (skipn 16 a) = 2%nat)
      by (rewrite length_skipn, Ha; reflexivity).
    destruct (skipn 16 a) as [| x [| y [| z l]]]; try discriminate.
    exists x, y. reflexivity. }
  destruct Htail as (x & y & ->).
  destruct (Atoi_trailing_NUL x y) as [e ->].
  cbv [fst snd conn trace pending].
  split; [exists e; reflexivity |].
  split; [reflexivity |].
  rewrite !reads_app. simpl. lia.
Qed.

Ltac count_events :=
  rewrite ?deadlines_app, ?reads_app, ?started_app, ?writes_app, ?calls_app;
  cbn [deadlines reads started writes calls List.app String.eqb Ascii.eqb Bool.eqb
       Nat.add];
  rewrite <- ?app_assoc; cbn [List.app]; rewrite ?app_nil_r.

(** X6. Every call of [readResponse] sets the read deadline once and, if
    that succeeds, clears it once before it ends, on every path, the panic
    included, after at most two [Read]s; if setting the deadline fails it
    returns an error without reading and without touching what is
    pending. *)
Theorem readResponse_deadline_cleared (w : World) :
  deadlines (trace (snd (readResponse w))) =
    deadlines (trace w)
      ++ Some 5%nat :: match deadline_result (conn w) with
                       | None => [None]
                       | Some _ => []
                       end /\
  (reads (trace (snd (readResponse w))) <= reads (trace w) + 2)%nat /\
  (forall e, deadline_result (conn w) = Some e ->
     fst (readResponse w) =
       Done ([], [], Some (Errorf "failed to set read deadline: %v" (Some e))) /\
     reads (trace (snd (readResponse w))) = reads (trace w) /\
     pending (conn (snd (readResponse w))) = pending (conn w)).
Proof.
  destruct w as [[p d r wr] t]. run_io.
  destruct r as [e0 |].
  { count_events. split; [reflexivity |]. split; [lia |].
    intros e' [= <-]. repeat split; try reflexivity; lia. }
  assert (Hdone : forall t', deadlines t' = deadlines t ++ [Some 5%nat; None] ->
            (reads t' <= reads t + 2)%nat ->
            deadlines t' = deadlines t ++ [Some 5%nat; None] /\
            (reads t' <= reads t + 2)%nat /\
            (forall e : error, @None error = Some e ->
               False)).
  { intros t' H1 H2. repeat split; try assumption. intros e' H. discriminate H. }
  assert (Hweak : forall (t' : list event) (o : outcome response) (p' : list (list byte)),
            (deadlines t' = deadlines t ++ [Some 5%nat; None] /\
             (reads t' <= reads t + 2)%nat /\
             (forall e : error, @None error = Some e -> False)) ->
            deadlines t' = deadlines t ++ [Some 5%nat; None] /\
            (reads t' <= reads t + 2)%nat /\
            (forall e : error, @None error = Some e ->
               o = Done ([], [], Some (Errorf "failed to set read deadline: %v" (Some e))) /\
               reads t' = reads t /\ p' = p)).
  { intros t' o p' (H1 & H2 & H3). repeat split; try assumption;
      exfalso; eapply H3; eassumption. }
  destruct p as [| run later].
  { destruct d; apply Hweak, Hdone; count_events; try reflexivity; lia. }
  destruct (Strconv.Atoi _) as [length | e];
    [| apply Hweak, Hdone; count_events; try reflexivity; lia].
  destruct (length - 16 <? 0)%Z;
    [apply Hweak, Hdone; count_events; try reflexivity; lia |].
  destruct (Z.to_nat (length - 16));
    [apply Hweak, Hdone; count_events; try reflexivity; lia |].
  destruct (skipn 19 run);
    [| apply Hweak, Hdone; count_events; try reflexivity; lia].
  destruct later; [destruct d |];
    apply Hweak, Hdone; count_events; try reflexivity; lia.
Qed.

(** X7. What [readResponse] returns: with an error, no header and no
    body; without one, a header of 19 bytes whose last three parse to some
    [L] of at least 16 and a body of exactly [L - 16] bytes, however many
    of them were read. *)
Theorem readResponse_result_shape
    (w : World) (header body : list byte) (err : option error) :
  fst (readResponse w) = Done (header, body, err) ->
  match err with
  | Some _ => header = [] /\ body = []
  | None =>
      List.length header = 19%nat /\
      exists L,
        Strconv.Atoi (string_of_list_byte (skipn 16 header)) = inl L /\
        (16 <= L)%Z /\
        len body = (L - 16)%Z
  end.
Proof.
  destruct w as [[p d r wr] t]. run_io.
  destruct r; [intros [= <- <- <-]; auto |].
  destruct p as [| run later].
  { destruct d; intros [= <- <- <-]; auto. }
  destruct (Strconv.Atoi _) as [length | e] eqn:Hatoi;
    [| intros [= <- <- <-]; auto].
  destruct (Z.ltb_spec (length - 16) 0) as [Hneg | Hpos]; [discriminate |].
  assert (Hgood : forall got : list byte,
            List.length (copy (make 19) (firstn 19 run)) = 19%nat /\
            exists L,
              Strconv.Atoi (string_of_list_byte
                 (skipn 16 (copy (make 19) (firstn 19 run)))) = inl L /\
              (16 <= L)%Z /\
              len (copy (make (Z.to_nat (length - 16))) got) = (L - 16)%Z).
  { intros got. split; [rewrite copy_length; apply make_length |].
    exists length. split; [exact Hatoi |]. split; [lia |].
    unfold len. rewrite copy_length, make_length. lia. }
  destruct (Z.to_nat (length - 16)) eqn:Hsize.
  { intros [= <- <- <-]. apply Hgood. }
  destruct (skipn 19 run).
  - destruct later; [destruct d; intros [= <- <- <-]; auto |].
    intros [= <- <- <-]. apply Hgood.
  - intros [= <- <- <-]. apply Hgood.
Qed.

(** ** More on the session responder *)

Section ResponderEdges.

Variable getenv : string -> string.
Variable json_Marshal : USSDMenuRequest -> list byte + error.
Variable json_Unmarshal : list byte -> USSDMenuResponse + error.
Variable http_Post : string -> list byte -> http_result.

Let resolver := getUssdMenu getenv json_Marshal json_Unmarshal http_Post.
Let menu := handleMenuRequest getenv json_Marshal json_Unmarshal http_Post.
Let handler := handleUSSDRequest getenv json_Marshal json_Unmarshal http_Post.

(** The resolver touches neither the connection nor the goroutines. *)
Lemma getUssdMenu_run (req : USSDRequest) (w : World) :
  exists r t,
    resolver req w = (Done r, mkWorld (conn w) (trace w ++ t)) /\
    writes t = [] /\ reads t = 0%nat /\ started t = [] /\ deadlines t = [] /\
    forall w', fst (resolver req w') = Done r.
Proof.
  subst resolver. unfold getUssdMenu. run.
  assert (Hrun : forall (r : USSDMenuResponse + error) (t t' : list event),
             t = trace w ++ t' ->
             writes t' = [] /\ reads t' = 0%nat /\ started t' = [] /\ deadlines t' = [] ->
             exists r0 t0,
               (Done r, mkWorld (conn w) t) =
                 (Done r0, mkWorld (conn w) (trace w ++ t0)) /\
               writes t0 = [] /\ reads t0 = 0%nat /\ started t0 = [] /\
               deadlines t0 = [] /\
               (forall w' : World, Done r = Done r0 :> outcome _)).
  { intros r t t' -> (H1 & H2 & H3 & H4). exists r, t'. auto 10. }
  destruct (json_Marshal _) as [requestBody | err]; run.
  2: { eapply Hrun; [rewrite <- !app_assoc |]; auto. }
  destruct (String.eqb _ _); run.
  { eapply Hrun; [rewrite <- !app_assoc |]; auto. }
  destruct (http_Post _ _) as [err | err | responseBody]; run.
  1, 2: eapply Hrun; [rewrite <- !app_assoc |]; auto.
  destruct (json_Unmarshal _) as [apiResponse | err]; run;
    (eapply Hrun; [rewrite <- !app_assoc |]; auto).
Qed.

(** What a valid continuing request makes [handleMenuRequest] do, by the
    answer of the resolver. *)
Lemma handleMenuRequest_valid (req : USSDRequest) (w : World) :
  MsgType req = 1%Z \/ MsgType req = 4%Z ->
  UserData req <> "" ->
  exists r,
    (forall w', fst (resolver req w') = Done r) /\
    fst (menu req w) = Done tt /\
    reads (trace (snd (menu req w))) = reads (trace w) /\
    deadlines (trace (snd (menu req w))) = deadlines (trace w) /\
    pending (conn (snd (menu req w))) = pending (conn w) /\
    match r with
    | inr err =>
        writes (trace (snd (menu req w))) = writes (trace w) /\
        write_results (conn (snd (menu req w))) = write_results (conn w) /\
        started (trace (snd (menu req w))) =
          started (trace w)
            ++ [UpdateMonitoringService "new" None;
                UpdateMonitoringService "Failed to get USSD menu" (Some err)]
    | inl apiResponse =>
        writes (trace (snd (menu req w))) =
          writes (trace w)
            ++ [fullMessage
                  (messageXML (buildResponse req (Message apiResponse)
                                             (Continue apiResponse)))
                  (RequestID req)] /\
        write_results (conn (snd (menu req w))) = tl (write_results (conn w)) /\
        started (trace (snd (menu req w))) =
          started (trace w)
            ++ UpdateMonitoringService "new" None
               :: match nextWriteResult (conn w) with
                  | Some e =>
                      [UpdateMonitoringService
                         "Failed to send ussd request message" (Some e)]
                  | None => []
                  end
    end.
Proof.
  intros Htype Hdata. subst menu. unfold handleMenuRequest.
  replace (negb (MsgType req =? 1)%Z && negb (MsgType req =? 4)%Z) with false
    by (destruct Htype as [-> | ->]; reflexivity).
  rewrite (proj2 (String.eqb_neq _ _) Hdata). run.
  match goal with
  | |- context [getUssdMenu _ _ _ _ ?q ?w2] =>
      destruct (getUssdMenu_run q w2)
        as (r & t & Heq & Hw & Hr & Hs & Hd & Hany)
  end.
  subst resolver. cbv beta in *. rewrite Heq. exists r.
  split; [exact Hany |]. cbn [fst snd conn trace].
  destruct r as [apiResponse | err]; run.
  - rewrite sendMessage_eq. cbn [fst snd conn trace].
    rewrite buildResponse_RequestID.
    destruct (nextWriteResult (conn w)); run;
      count_events; rewrite ?Hw, ?Hr, ?Hs, ?Hd; cbn [List.app Nat.add];
      rewrite ?app_nil_r, ?Nat.add_0_r; repeat split; reflexivity.
  - count_events; rewrite ?Hw, ?Hr, ?Hs, ?Hd; cbn [List.app Nat.add];
      rewrite ?app_nil_r, ?Nat.add_0_r; repeat split; reflexivity.
Qed.

(** X8. When the resolver fails on a valid continuing request, the handler
    returns without handing anything to [conn.Write]; the goroutines it
    has started are the two monitoring updates, the second one carrying the
    resolver's error. *)
Theorem handleUSSDRequest_resolver_failure
    (req : USSDRequest) (w : World) (err : error) :
  ErrorCode req = "" ->
  EndOfSession req = 0%Z ->
  MsgType req = 1%Z \/ MsgType req = 4%Z ->
  UserData req <> "" ->
  fst (resolver req w) = Done (inr err) ->
  fst (handler req w) = Done tt /\
  writes (trace (snd (handler req w))) = writes (trace w) /\
  write_results (conn (snd (handler req w))) = write_results (conn w) /\
  started (trace (snd (handler req w))) =
    started (trace w)
      ++ [UpdateMonitoringService "new" None;
          UpdateMonitoringService "Failed to get USSD menu" (Some err)].
Proof.
  intros Herr Hend Htype Hdata Hmenu.
  subst handler. unfold handleUSSDRequest. rewrite Herr, Hend. simpl.
  destruct (handleMenuRequest_valid req w Htype Hdata)
    as (r & Hany & Hdone & _ & _ & _ & Hr).
  rewrite (Hany w) in Hmenu.
  assert (Hr' : r = inr err) by congruence. subst r. cbv beta iota in Hr.
  destruct Hr as (Hw & Hwr & Hs). auto.
Qed.

(** X9. When [conn.Write] fails on the reply, the handler does not try
    again: it returns after that one [Write], and the last goroutine it
    starts is the monitoring update that carries the error of the
    [Write]. *)
Theorem handleUSSDRequest_write_failure
    (req : USSDRequest) (w : World) (apiResponse : USSDMenuResponse) (e : error) :
  ErrorCode req = "" ->
  EndOfSession req = 0%Z ->
  MsgType req = 1%Z \/ MsgType req = 4%Z ->
  UserData req <> "" ->
  fst (resolver req w) = Done (inl apiResponse) ->
  nextWriteResult (conn w) = Some e ->
  fst (handler req w) = Done tt /\
  List.length (writes (trace (snd (handler req w)))) =
    S (List.length (writes (trace w))) /\
  write_results (conn (snd (handler req w))) = tl (write_results (conn w)) /\
  started (trace (snd (handler req w))) =
    started (trace w)
      ++ [UpdateMonitoringService "new" None;
          UpdateMonitoringService "Failed to send ussd request message" (Some e)].
Proof.
  intros Herr Hend Htype Hdata Hmenu Hfail.
  subst handler. unfold handleUSSDRequest. rewrite Herr, Hend. simpl.
  destruct (handleMenuRequest_valid req w Htype Hdata)
    as (r & Hany & Hdone & _ & _ & _ & Hr).
  rewrite (Hany w) in Hmenu.
  assert (Hr' : r = inl apiResponse) by congruence. subst r. cbv beta iota in Hr.
  destruct Hr as (Hw & Hwr & Hs). rewrite Hfail in Hs.
  repeat split; try assumption.
  subst menu. cbv beta in Hw. rewrite Hw, length_app. simpl. lia.
Qed.

(** X10. Whatever the request, the handler returns, without exiting the
    process and without a panic; it hands at most one buffer to
    [conn.Write], and it neither reads from the connection nor sets a
    deadline on it. *)
Theorem handleUSSDRequest_at_most_one_frame (req : USSDRequest) (w : World) :
  fst (handler req w) = Done tt /\
  (exists frames,
     writes (trace (snd (handler req w))) = writes (trace w) ++ frames /\
     (List.length frames <= 1)%nat) /\
  reads (trace (snd (handler req w))) = reads (trace w) /\
  deadlines (trace (snd (handler req w))) = deadlines (trace w) /\
  pending (conn (snd (handler req w))) = pending (conn w).
Proof.
  destruct (handleUSSDRequest_writes getenv json_Marshal json_Unmarshal
              http_Post req w) as [Hdone Hwrites].
  split; [exact Hdone |]. split.
  { eexists. split; [exact Hwrites |]. unfold replies.
    destruct (_ && _); [| auto].
    destruct (fst (getUssdMenu _ _ _ _ req w)) as [[a | e] | f | m];
      simpl; auto. }
  subst handler. unfold handleUSSDRequest.
  destruct (String.eqb (ErrorCode req) ""); simpl;
    [| run; count_events; rewrite ?Nat.add_0_r; auto].
  destruct (EndOfSession req =? 0)%Z;
    [| run; count_events; rewrite ?Nat.add_0_r; auto].
  destruct (Z.eqb_spec (MsgType req) 1) as [H1 | H1];
    [| destruct (Z.eqb_spec (MsgType req) 4) as [H4 | H4]].
  3: { unfold handleMenuRequest.
       rewrite (proj2 (Z.eqb_neq _ _) H1), (proj2 (Z.eqb_neq _ _) H4). simpl.
       run. count_events. rewrite ?Nat.add_0_r. auto. }
  all: destruct (String.eqb_spec (UserData req) "") as [Hd | Hd].
  1, 3: unfold handleMenuRequest; rewrite Hd;
        destruct (negb _ && negb _); simpl; run; count_events;
        rewrite ?Nat.add_0_r; auto.
  all: destruct (handleMenuRequest_valid req w) as (r & _ & _ & Hr & Hdl & Hp & _);
    auto.
Qed.

(** X11. Any [endOfSession] other than 0, not only 1, ends the handling:
    the handler logs and returns, the connection is as it was, the resolver
    is not called and no goroutine is started, the monitoring update
    included. *)
Theorem handleUSSDRequest_nonzero_end (req : USSDRequest) (w : World) :
  EndOfSession req <> 0%Z ->
  exists w',
    handler req w = (Done tt, w') /\
    conn w' = conn w /\
    writes (trace w') = writes (trace w) /\
    calls "getUssdMenu" (trace w') = calls "getUssdMenu" (trace w) /\
    started (trace w') = started (trace w).
Proof.
  intros Hend. subst handler. unfold handleUSSDRequest.
  rewrite (proj2 (Z.eqb_neq _ _) Hend).
  destruct (String.eqb (ErrorCode req) ""); simpl; run;
    (eexists; split; [reflexivity |]); cbn [conn trace]; count_events;
    rewrite ?Nat.add_0_r; repeat split; reflexivity.
Qed.

(** X12. With [USSD_API_URL] unset the resolver is not reached: once the
    request is marshalled, [getUssdMenu] returns the error
    "ussd menu url not set" and sends no HTTP request. *)
Theorem getUssdMenu_url_not_set
    (req : USSDRequest) (w : World) (requestBody : list byte) :
  json_Marshal
    {| Telco := "MTN"; Shortcode := "*" ++ StarCode req ++ "#"; ProductID := 2;
       Phone := MSISDN req; Input := UserData req; SessionID := RequestID req |}
    = inl requestBody ->
  getenv "USSD_API_URL" = "" ->
  fst (resolver req w) = Done (inr (ErrNew "ussd menu url not set")) /\
  posts (trace (snd (resolver req w))) = posts (trace w).
Proof.
  intros Hbody Hurl. subst resolver. unfold getUssdMenu.
  rewrite Hbody, Hurl. simpl. run.
  rewrite !posts_app. simpl. split; [reflexivity | lia].
Qed.

(** X13. With [USSD_API_URL] set, [getUssdMenu] calls [http.Post] with
    that URL and the marshalled request (telco MTN, short code
    [*starCode#], product 2, the subscriber number, the user data, the
    request identifier as session), and what it returns is decided by that
    call alone: the error of the call or of reading the answer, or else
    whatever unmarshalling the body gives, for any body the call hands
    back.  How many requests the library puts on the network for the call
    is not stated. *)
Theorem getUssdMenu_asks_and_returns
    (req : USSDRequest) (w : World) (requestBody : list byte) :
  json_Marshal
    {| Telco := "MTN"; Shortcode := "*" ++ StarCode req ++ "#"; ProductID := 2;
       Phone := MSISDN req; Input := UserData req; SessionID := RequestID req |}
    = inl requestBody ->
  getenv "USSD_API_URL" <> "" ->
  In (EvHTTPPost (getenv "USSD_API_URL") requestBody)
     (trace (snd (resolver req w))) /\
  fst (resolver req w) =
    Done match http_Post (getenv "USSD_API_URL") requestBody with
         | PostFailed err => inr err
         | ReadAllFailed err => inr err
         | Body responseBody => json_Unmarshal responseBody
         end.
Proof.
  intros Hbody Hurl. subst resolver. unfold getUssdMenu.
  rewrite Hbody, (proj2 (String.eqb_neq _ _) Hurl). run.
  destruct (http_Post _ _) as [err | err | responseBody]; run.
  1, 2: split; [| reflexivity];
        rewrite <- !app_assoc; apply in_or_app; right; simpl; auto 10.
  destruct (json_Unmarshal responseBody) as [apiResponse | err]; run;
    (split; [| reflexivity]);
    rewrite <- !app_assoc; apply in_or_app; right; simpl; auto 10.
Qed.

End ResponderEdges.

(** ** The dispatcher *)

Lemma readResponse_nothing_pending (w : World) :
  pending (conn w) = [] ->
  deadline_result (conn w) = None ->
  exists e,
    readResponse w =
    (Done ([], [], Some e),
     mkWorld (conn w)
             (trace w ++ [EvSetReadDeadline (Some 5%nat);
                          EvRead 19 [] (Some (drained (conn w)));
                          EvSetReadDeadline None])).
Proof.
  destruct w as [[p d r wr] t]. simpl. intros -> ->. run_io.
  destruct d; eexists; rewrite <- !app_assoc; reflexivity.
Qed.

Section DispatcherFacts.

Variable getenv : string -> string.
Variable json_Marshal : USSDMenuRequest -> list byte + error.
Variable json_Unmarshal : list byte -> USSDMenuResponse + error.
Variable http_Post : string -> list byte -> http_result.
Variable xml_Unmarshal : list byte -> USSDRequest + error.
Variable stopped : nat -> bool.

Let process :=
  Tasks.processServerMessage getenv json_Marshal json_Unmarshal http_Post
                             xml_Unmarshal.
Let listen := Tasks.listenToTCPMessages stopped.

(** X14. [processServerMessage] returns for every message and hands at
    most one buffer to [conn.Write], whatever the header it is given; a
    body that does not unmarshal, or whose root is not [USSDRequest], is
    dropped with no trace at all, not even a log entry. *)
Theorem processServerMessage_drops_or_replies_once
    (header body : list byte) (w : World) :
  fst (process header body w) = Done tt /\
  (exists frames,
     writes (trace (snd (process header body w))) = writes (trace w) ++ frames /\
     (List.length frames <= 1)%nat) /\
  ((forall req, xml_Unmarshal body = inl req -> XMLName req <> "USSDRequest") ->
   snd (process header body w) = w).
Proof.
  subst process. unfold Tasks.processServerMessage.
  destruct (xml_Unmarshal body) as [req | err].
  2: { run. repeat split; auto. exists []. rewrite app_nil_r. auto. }
  destruct (String.eqb_spec (XMLName req) "USSDRequest") as [Hroot | Hroot]; simpl.
  2: { run. repeat split; auto. exists []. rewrite app_nil_r. auto. }
  run.
  match goal with
  | |- context [handleUSSDRequest _ _ _ _ req ?w1] =>
      destruct (handleUSSDRequest_writes getenv json_Marshal json_Unmarshal
                  http_Post req w1) as [Hdone Hwrites]
  end.
  split; [exact Hdone |]. split.
  - eexists. split.
    + rewrite Hwrites. cbn [trace]. rewrite writes_app. simpl.
      rewrite app_nil_r. reflexivity.
    + unfold replies. destruct (_ && _); [| auto].
      destruct (fst (getUssdMenu _ _ _ _ req _)) as [[a | e] | f | m];
        simpl; auto.
  - intros Hnot. exfalso. apply (Hnot req); [reflexivity | exact Hroot].
Qed.

(** X15. The listener never writes: whatever arrives, however long it
    runs and however it ends, nothing is handed to [conn.Write] and the
    write side of the connection is as it was. *)
Theorem listenToTCPMessages_never_writes (rounds i : nat) (w : World) :
  writes (trace (snd (listen rounds i w))) = writes (trace w) /\
  write_results (conn (snd (listen rounds i w))) = write_results (conn w).
Proof.
  subst listen. revert i w.
  induction rounds as [| rounds IH]; intros i w; simpl.
  { run. auto. }
  destruct (stopped i); [run; auto |].
  run.
  destruct (readResponse_write_side w) as [Hwr Hw].
  destruct (readResponse w) as [[[[header body] [e |]] | f | m] w1];
    cbn [fst snd] in *; try (split; assumption).
  - run. destruct (IH (S i) (mkWorld (conn w1) (trace w1 ++ [EvCall "time.Sleep"])))
      as [H1 H2].
    rewrite H1, H2. cbn [conn trace]. rewrite writes_app. simpl.
    rewrite app_nil_r. auto.
  - run.
    destruct (IH (S i) (mkWorld (conn w1)
                (trace w1 ++ [EvLog AppLogger INFO "[SERVER MESSAGE] Body: %s"])))
      as [H1 H2].
    destruct (Tasks.listenToTCPMessages stopped rounds (S i) _) as [[rest | f | m] w2];
      cbn [fst snd conn trace] in *;
      rewrite H1, H2, writes_app; simpl; rewrite app_nil_r; auto.
Qed.

(** X16. On a connection where nothing arrives, the listener keeps
    going: every turn makes one [Read], fails and sleeps, and nothing is
    dispatched; it returns at the first turn that finds [stopChan] closed,
    without reading again. *)
Theorem listenToTCPMessages_idle_until_stopped (k rounds i : nat) (w : World) :
  pending (conn w) = [] ->
  deadline_result (conn w) = None ->
  (forall j, (j < k)%nat -> stopped (i + j) = false) ->
  stopped (i + k) = true ->
  (k < rounds)%nat ->
  fst (listen rounds i w) = Done ([], true) /\
  conn (snd (listen rounds i w)) = conn w /\
  reads (trace (snd (listen rounds i w))) = (reads (trace w) + k)%nat /\
  calls "time.Sleep" (trace (snd (listen rounds i w))) =
    (calls "time.Sleep" (trace w) + k)%nat.
Proof.
  subst listen. revert rounds i w.
  induction k as [| k IH]; intros rounds i w Hp Hd Hrun Hstop Hk.
  - destruct rounds as [| rounds]; [lia |]. simpl.
    rewrite Nat.add_0_r in Hstop. rewrite Hstop. run.
    repeat split; lia.
  - destruct rounds as [| rounds]; [lia |]. simpl.
    assert (Hi : stopped i = false)
      by (rewrite <- (Nat.add_0_r i); apply Hrun; lia).
    rewrite Hi.
    run. destruct (readResponse_nothing_pending w Hp Hd) as [e ->]. run.
    match goal with
    | |- context [Tasks.listenToTCPMessages stopped rounds (S i) ?w1] =>
        destruct (IH rounds (S i) w1) as (H1 & H2 & H3 & H4)
    end; try assumption.
    + intros j Hj. replace (S i + j)%nat with (i + S j)%nat by lia.
      apply Hrun. lia.
    + replace (S i + k)%nat with (i + S k)%nat by lia. exact Hstop.
    + lia.
    + rewrite H1, H2, H3, H4. cbn [conn trace].
      rewrite !reads_app, !calls_app. simpl. repeat split; lia.
Qed.

(** X17. One header that declares less than 16 ends the listener with a
    panic, which nothing recovers: the read error path, sleep and retry,
    does not cover it. *)
Theorem listenToTCPMessages_panics_below_16
    (rounds i : nat) (header rest : list byte) (later : list (list byte))
    (d : error) (wr : list (option error)) (t : list event) (L : Z) :
  stopped i = false ->
  List.length header = 19%nat ->
  Strconv.Atoi (string_of_list_byte (skipn 16 header)) = inl L ->
  (L < 16)%Z ->
  fst (listen (S rounds) i
         (mkWorld (mkConn ((header ++ rest) :: later) d None wr) t)) =
    Panic "makeslice: len out of range".
Proof.
  intros Hrun Hlen Hatoi Hlow. subst listen. simpl. rewrite Hrun. run.
  rewrite (readResponse_low_run header rest later d wr t L Hlen Hatoi Hlow).
  reflexivity.
Qed.

(** X18. Frames that arrive back to back in a single run are told apart
    and dispatched one by one, in the order of arrival, each with its own
    header and body: the listener hands exactly these to
    [go processServerMessage], and is still in its loop afterwards. *)
Theorem listenToTCPMessages_dispatches_in_order
    (frames : list (list byte * list byte)) (i : nat)
    (d : error) (wr : list (option error)) (t : list event) :
  Forall (fun frame =>
            List.length (fst frame) = 19%nat /\
            Strconv.Atoi (string_of_list_byte (skipn 16 (fst frame))) =
              inl (len (snd frame) + 16)%Z)
         frames ->
  (forall j, (j < List.length frames)%nat -> stopped (i + j) = false) ->
  fst (listen (List.length frames) i
         (mkWorld (mkConn (match stream frames with
                           | [] => []
                           | _ :: _ => [stream frames]
                           end) d None wr) t)) =
    Done (frames, false).
Proof.
  subst listen. revert i t.
  induction frames as [| [h b] fs IH]; intros i t Hok Hrun.
  { reflexivity. }
  inversion Hok as [| ? ? [Hlen Hatoi] Hrest]; subst. cbn [fst snd] in *.
  assert (Hi : stopped i = false)
    by (rewrite <- (Nat.add_0_r i); apply Hrun; simpl; lia).
  assert (Hstream : stream ((h, b) :: fs) = h ++ b ++ stream fs)
    by (unfold stream; simpl; rewrite <- app_assoc; reflexivity).
  rewrite Hstream.
  destruct (h ++ b ++ stream fs) as [| x xs] eqn:Hrun1.
  { apply (f_equal (@List.length byte)) in Hrun1.
    rewrite length_app, Hlen in Hrun1. discriminate. }
  rewrite <- Hrun1. simpl List.length. simpl Tasks.listenToTCPMessages.
  rewrite Hi. run.
  destruct (readResponse_frame_run h b (stream fs) [] d wr t
              (len b + 16)%Z Hlen Hatoi) as [t' ->]; [lia |].
  run.
  match goal with
  | |- context [Tasks.listenToTCPMessages stopped _ (S i) ?w1] =>
      pose proof (IH (S i) (trace w1) Hrest) as Hnext
  end.
  cbn [trace] in Hnext.
  match type of Hnext with
  | ?P -> _ =>
      assert (Hshift : P)
        by (intros j Hj; replace (S i + j)%nat with (i + S j)%nat by lia;
            apply Hrun; simpl; lia)
  end.
  specialize (Hnext Hshift).
  destruct (Tasks.listenToTCPMessages stopped _ (S i) _) as [o w2].
  cbn [fst] in Hnext. subst o. reflexivity.
Qed.

End DispatcherFacts.

(** ** More on the main thread *)

Lemma readResponse_starts_nothing (w : World) :
  started (trace (snd (readResponse w))) = started (trace w).
Proof.
  destruct w as [[p d r wr] t]. run_io.
  destruct r; [count_events; reflexivity |].
  destruct p as [| run later].
  { destruct d; count_events; reflexivity. }
  destruct (Strconv.Atoi _) as [length | e]; [| count_events; reflexivity].
  destruct (length - 16 <? 0)%Z; [count_events; reflexivity |].
  destruct (Z.to_nat (length - 16)); [count_events; reflexivity |].
  destruct (skipn 19 run); [| count_events; reflexivity].
  destruct later; [destruct d |]; count_events; reflexivity.
Qed.

Section MainEdges.

Variable UnixNano : Z.
Variable dial_result : option error.
Variable cfg_Username cfg_Password cfg_ClientID : string.
Variable xml_Marshal_logon : LogonRequest -> list byte.
Variable xml_Marshal_enquire : EnquireLink -> list byte.

Let ticker := enquireLoop xml_Marshal_enquire.
Let mainThread :=
  main UnixNano dial_result cfg_Username cfg_Password cfg_ClientID
       xml_Marshal_logon xml_Marshal_enquire.

(** The ticker loop when the write number [k] is the first to fail. *)
Lemma enquireLoop_stops_at_failure
    (k ticks : nat) (sessionID : string) (w : World)
    (e : error) (rest : list (option error)) :
  write_results (conn w) = repeat None k ++ Some e :: rest ->
  (k < ticks)%nat ->
  fst (ticker ticks sessionID w) = Fatal "Failed to send Enquire Link: %v" /\
  List.length (writes (trace (snd (ticker ticks sessionID w)))) =
    (List.length (writes (trace w)) + k + 1)%nat /\
  write_results (conn (snd (ticker ticks sessionID w))) = rest.
Proof.
  subst ticker. revert ticks w.
  induction k as [| k IH]; intros ticks w Hwr Hk;
    (destruct ticks as [| ticks]; [lia |]); simpl; run;
    rewrite sendMessage_eq; cbn [fst snd conn trace];
    unfold nextWriteResult; rewrite Hwr; simpl.
  - run. rewrite !writes_app, !length_app. simpl. repeat split; lia.
  - match goal with
    | |- context [enquireLoop _ ticks sessionID ?w1] =>
        destruct (IH ticks w1) as (H1 & H2 & H3)
    end; [reflexivity | lia |].
    rewrite H1, H2, H3. cbn [conn trace].
    rewrite !writes_app, !length_app. simpl. repeat split; lia.
Qed.

(** X19. Without a completed handshake there is no keepalive and no
    listener: if the dial fails, or the logon cannot be written, or
    [readResponse] returns an error for the logon response, the main thread
    exits the process, having handed at most the logon frame to
    [conn.Write] and having started nothing but the HTTP server. *)
Theorem main_handshake_failure_is_fatal (ticks : nat) (w : World) :
  dial_result <> None \/
  nextWriteResult (conn w) <> None \/
  (exists header body e, fst (readResponse w) = Done (header, body, Some e)) ->
  exists format frames,
    fst (mainThread ticks w) = Fatal format /\
    writes (trace (snd (mainThread ticks w))) = writes (trace w) ++ frames /\
    (List.length frames <= 1)%nat /\
    started (trace (snd (mainThread ticks w))) =
      started (trace w) ++ [startHTTPServer].
Proof.
  intros Hfail. subst mainThread. unfold main.
  destruct dial_result as [e0 |].
  { run. exists "Error connecting to server: %v", [].
    count_events. auto. }
  run. rewrite sendMessage_eq. cbn [fst snd conn trace].
  destruct (nextWriteResult (conn w)) as [e1 |] eqn:Hsend.
  { run. eexists _, [_]. count_events. repeat split; auto. }
  destruct Hfail as [Hdial | [Hwrite | (header & body & e & Hread)]];
    try contradiction.
  run.
  match goal with
  | |- context [readResponse ?w1] =>
      assert (Hsame : fst (readResponse w1) = Done (header, body, Some e))
        by (rewrite <- Hread; apply readResponse_read_side; reflexivity);
      pose proof (readResponse_write_side w1) as [_ Hquiet];
      pose proof (readResponse_starts_nothing w1) as Hnone;
      destruct (readResponse w1) as [r w2]
  end.
  cbn [fst snd trace conn] in *. subst r. run.
  eexists _, [_]. count_events. rewrite Hquiet, Hnone. count_events.
  repeat split; auto.
Qed.

(** X20. A keepalive that cannot be written is the last thing the main
    thread does: when the logon and the first [k] keepalives are written
    and the next [Write] fails, the process exits on that failure, after
    [k + 2] writes in all, however many ticks were still to come. *)
Theorem main_keepalive_failure_is_fatal
    (k ticks : nat) (w : World) (header body : list byte)
    (e : error) (rest : list (option error)) :
  dial_result = None ->
  fst (readResponse w) = Done (header, body, None) ->
  write_results (conn w) = repeat None (S k) ++ Some e :: rest ->
  (k < ticks)%nat ->
  fst (mainThread ticks w) = Fatal "Failed to send Enquire Link: %v" /\
  List.length (writes (trace (snd (mainThread ticks w)))) =
    (List.length (writes (trace w)) + k + 2)%nat.
Proof.
  intros Hdial Hread Hwr Hk. subst mainThread. unfold main.
  rewrite Hdial. run. rewrite sendMessage_eq. cbn [fst snd conn trace].
  unfold nextWriteResult. rewrite Hwr. simpl. run.
  match goal with
  | |- context [readResponse ?w1] =>
      assert (Hsame : fst (readResponse w1) = Done (header, body, None))
        by (rewrite <- Hread; apply readResponse_read_side; reflexivity);
      pose proof (readResponse_write_side w1) as [Hwr1 Hquiet];
      destruct (readResponse w1) as [r w2]
  end.
  cbn [fst snd trace conn write_results] in *. subst r. run.
  match goal with
  | |- context [enquireLoop _ ticks ?sid ?w3] =>
      destruct (enquireLoop_stops_at_failure k ticks sid w3 e rest)
        as (H1 & H2 & _)
  end; [exact Hwr1 | exact Hk |].
  subst ticker. cbv beta in *. rewrite H1, H2. cbn [trace].
  rewrite !writes_app, !length_app, Hquiet, !writes_app, !length_app.
  simpl. split; [reflexivity | lia].
Qed.

End MainEdges.

(** ** The start-up *)

Section StartupFacts.

Variable godotenv_Load : option error.
Variable getenv : string -> string.
Variable JoinHostPort : string -> string -> string.
Variable logger_New : string -> option error.

Let init := Startup.init godotenv_Load getenv JoinHostPort logger_New.

Lemma firstMissing_spec (vars : list string) :
  match Startup.firstMissing getenv vars with
  | Some v => In v vars /\ getenv v = ""
  | None => forall v, In v vars -> getenv v <> ""
  end.
Proof.
  induction vars as [| v vars IH]; simpl.
  - intros v [].
  - destruct (String.eqb_spec (getenv v) "") as [Hv | Hv].
    + auto.
    + destruct (Startup.firstMissing getenv vars) as [u |].
      * destruct IH. auto.
      * intros u [<- | Hu]; auto.
Qed.

(** X21. Once [.env] is loaded, [init] exits on a missing variable exactly
    when one of [SERVER_HOST], [SERVER_PORT], [USERNAME], [PASSWORD] and
    [CLIENT_ID] is empty, before any logger is opened and whatever the
    other settings are. *)
Theorem init_missing_variable :
  godotenv_Load = None ->
  (init = Fatal "Missing required environment variable: %s" <->
   exists v, In v Startup.requiredVars /\ getenv v = "").
Proof.
  intros Hload. subst init. unfold Startup.init. rewrite Hload.
  pose proof (firstMissing_spec Startup.requiredVars) as Hspec.
  destruct (Startup.firstMissing getenv Startup.requiredVars) as [v |].
  - split; [intros _; exists v; exact Hspec | reflexivity].
  - split.
    + destruct (logger_New _); [discriminate |].
      destruct (logger_New _); [discriminate |].
      destruct (logger_New _); [discriminate |].
      destruct (logger_New _); discriminate.
    + intros (v & Hin & Hempty). exfalso. exact (Hspec v Hin Hempty).
Qed.

(** X22. When [init] returns, [.env] was loaded, the five required
    variables are not empty, the server address is the host and port
    joined, the credentials are those of the environment, and the four
    loggers were opened under [LOG_PATH], or under [./logs] when
    [LOG_PATH] is empty, in the directories [log], [errors], [requests]
    and [menu]. *)
Theorem init_success_values (g : Startup.Globals) :
  init = Done g ->
  let logPath :=
    if String.eqb (getenv "LOG_PATH") "" then "./logs" else getenv "LOG_PATH" in
  godotenv_Load = None /\
  (forall v, In v Startup.requiredVars -> getenv v <> "") /\
  Startup.ServerAddress g =
    JoinHostPort (getenv "SERVER_HOST") (getenv "SERVER_PORT") /\
  Startup.Username g = getenv "USERNAME" /\
  Startup.Password g = getenv "PASSWORD" /\
  Startup.ClientID g = getenv "CLIENT_ID" /\
  Startup.AppLoggerPath g = (logPath ++ "/log")%string /\
  Startup.ErrorLoggerPath g = (logPath ++ "/errors")%string /\
  Startup.RequestLoggerPath g = (logPath ++ "/requests")%string /\
  Startup.MenuLoggerPath g = (logPath ++ "/menu")%string /\
  Forall (fun dir => logger_New (logPath ++ dir)%string = None)
         ["/log"; "/errors"; "/requests"; "/menu"].
Proof.
  subst init. unfold Startup.init.
  destruct godotenv_Load; [discriminate |].
  pose proof (firstMissing_spec Startup.requiredVars) as Hspec.
  destruct (Startup.firstMissing getenv Startup.requiredVars) as [v |];
    [discriminate |].
  destruct (logger_New _) eqn:H1; [discriminate |].
  destruct (logger_New _) eqn:H2 in |- *; [discriminate |].
  destruct (logger_New _) eqn:H3 in |- *; [discriminate |].
  destruct (logger_New _) eqn:H4 in |- *; [discriminate |].
  intros [= <-]. simpl.
  repeat split; auto.
Qed.

End StartupFacts.

(** ** The further theorems at concrete inputs *)

Lemma fullMessage_four_digits_misread_witness :
  (1000 <= len Scenario.oversized + 32 <= 9999)%Z /\
  Strconv.Atoi
    (string_of_list_byte
       (skipn 16 (firstn 19 (fullMessage Scenario.oversized "R1")))) =
  inl ((len Scenario.oversized + 32) / 10)%Z.
Proof.
  assert (H : (1000 <= len Scenario.oversized + 32 <= 9999)%Z)
    by (vm_compute; split; discriminate).
  split; [exact H |].
  exact (fullMessage_four_digits_misread Scenario.oversized "R1" H).
Defined.

Lemma readResponse_whole_frame_witness :
  let header := fst Cases.firstFrame in
  let body := snd Cases.firstFrame in
  let rest := stream [Cases.secondFrame] in
  let w := mkWorld (mkConn [header ++ body ++ rest] ErrTimeout None []) [] in
  List.length header = 19%nat /\
  Strconv.Atoi (string_of_list_byte (skipn 16 header)) = inl 20%Z /\
  len body = (20 - 16)%Z /\
  fst (readResponse w) = Done (header, body, None) /\
  pending (conn (snd (readResponse w))) =
    match rest with [] => [] | _ :: _ => [rest] end.
Proof.
  intros header body rest w.
  assert (H1 : List.length header = 19%nat) by reflexivity.
  assert (H2 : Strconv.Atoi (string_of_list_byte (skipn 16 header)) = inl 20%Z)
    by (vm_compute; reflexivity).
  assert (H3 : len body = (20 - 16)%Z) by reflexivity.
  split; [exact H1 |]. split; [exact H2 |]. split; [exact H3 |].
  exact (readResponse_whole_frame header body rest [] ErrTimeout [] [] 20 H1 H2 H3).
Defined.

Lemma readResponse_panics_below_16_witness :
  let w := mkWorld (mkConn [Cases.lowHeader ++ []] ErrTimeout None []) [] in
  List.length Cases.lowHeader = 19%nat /\
  Strconv.Atoi (string_of_list_byte (skipn 16 Cases.lowHeader)) = inl 15%Z /\
  (15 < 16)%Z /\
  fst (readResponse w) = Panic "makeslice: len out of range" /\
  pending (conn (snd (readResponse w))) = [] /\
  deadlines (trace (snd (readResponse w))) = deadlines [] ++ [Some 5%nat; None].
Proof.
  intros w.
  assert (H1 : List.length Cases.lowHeader = 19%nat) by reflexivity.
  assert (H2 : Strconv.Atoi (string_of_list_byte (skipn 16 Cases.lowHeader))
               = inl 15%Z) by (vm_compute; reflexivity).
  assert (H3 : (15 < 16)%Z) by reflexivity.
  split; [exact H1 |]. split; [exact H2 |]. split; [exact H3 |].
  exact (readResponse_panics_below_16 Cases.lowHeader [] [] ErrTimeout [] []
           15 H1 H2 H3).
Defined.

Lemma readResponse_short_header_witness :
  let w := mkWorld (mkConn [Cases.halfHeader] ErrTimeout None []) [] in
  (List.length Cases.halfHeader < 19)%nat /\
  (exists e,
     fst (readResponse w) =
       Done ([], [], Some (Errorf "invalid message length: %v" (Some e)))) /\
  pending (conn (snd (readResponse w))) = [] /\
  reads (trace (snd (readResponse w))) = S (reads []).
Proof.
  intros w.
  assert (H : (List.length Cases.halfHeader < 19)%nat) by (vm_compute; lia).
  split; [exact H |].
  exact (readResponse_short_header "S"%byte (list_byte_of_string "ESSIONKEY")
           [] ErrTimeout [] [] H).
Defined.

Lemma readResponse_result_shape_witness :
  fst (readResponse Scenario.afterDial) =
    Done (Scenario.logonHeader, Scenario.logonBody, None) /\
  List.length Scenario.logonHeader = 19%nat /\
  exists L,
    Strconv.Atoi (string_of_list_byte (skipn 16 Scenario.logonHeader)) = inl L /\
    (16 <= L)%Z /\
    len Scenario.logonBody = (L - 16)%Z.
Proof.
  assert (H : fst (readResponse Scenario.afterDial) =
              Done (Scenario.logonHeader, Scenario.logonBody, None))
    by (vm_compute; reflexivity).
  split; [exact H |].
  exact (readResponse_result_shape Scenario.afterDial Scenario.logonHeader
           Scenario.logonBody None H).
Defined.

Lemma handleUSSDRequest_resolver_failure_witness :
  let resolver := getUssdMenu Scenario.getenv Scenario.json_Marshal
                              Scenario.json_Unmarshal Cases.http_down in
  let handler := handleUSSDRequest Scenario.getenv Scenario.json_Marshal
                                   Scenario.json_Unmarshal Cases.http_down in
  let req := Scenario.menuRequest in
  let w := Scenario.start in
  let err := ErrIO "connection refused" in
  ErrorCode req = "" /\
  EndOfSession req = 0%Z /\
  (MsgType req = 1%Z \/ MsgType req = 4%Z) /\
  UserData req <> "" /\
  fst (resolver req w) = Done (inr err) /\
  fst (handler req w) = Done tt /\
  writes (trace (snd (handler req w))) = writes (trace w) /\
  write_results (conn (snd (handler req w))) = write_results (conn w) /\
  started (trace (snd (handler req w))) =
    started (trace w)
      ++ [UpdateMonitoringService "new" None;
          UpdateMonitoringService "Failed to get USSD menu" (Some err)].
Proof.
  intros resolver handler req w err.
  assert (H1 : ErrorCode req = "") by reflexivity.
  assert (H2 : EndOfSession req = 0%Z) by reflexivity.
  assert (H3 : MsgType req = 1%Z \/ MsgType req = 4%Z) by (left; reflexivity).
  assert (H4 : UserData req <> "") by discriminate.
  assert (H5 : fst (resolver req w) = Done (inr err)) by reflexivity.
  split; [exact H1 |]. split; [exact H2 |]. split; [exact H3 |].
  split; [exact H4 |]. split; [exact H5 |].
  exact (handleUSSDRequest_resolver_failure
           Scenario.getenv Scenario.json_Marshal Scenario.json_Unmarshal
           Cases.http_down req w err H1 H2 H3 H4 H5).
Defined.

Lemma handleUSSDRequest_write_failure_witness :
  let resolver := getUssdMenu Scenario.getenv Scenario.json_Marshal
                              Scenario.json_Unmarshal Scenario.http_Post in
  let handler := handleUSSDRequest Scenario.getenv Scenario.json_Marshal
                                   Scenario.json_Unmarshal Scenario.http_Post in
  let req := Scenario.menuRequest in
  let w := Cases.brokenPipe in
  let apiResponse := {| Message := "Menu text"; Continue := true |} in
  let e := ErrIO "broken pipe" in
  ErrorCode req = "" /\
  EndOfSession req = 0%Z /\
  (MsgType req = 1%Z \/ MsgType req = 4%Z) /\
  UserData req <> "" /\
  fst (resolver req w) = Done (inl apiResponse) /\
  nextWriteResult (conn w) = Some e /\
  fst (handler req w) = Done tt /\
  List.length (writes (trace (snd (handler req w)))) =
    S (List.length (writes (trace w))) /\
  write_results (conn (snd (handler req w))) = tl (write_results (conn w)) /\
  started (trace (snd (handler req w))) =
    started (trace w)
      ++ [UpdateMonitoringService "new" None;
          UpdateMonitoringService "Failed to send ussd request message" (Some e)].
Proof.
  intros resolver handler req w apiResponse e.
  assert (H1 : ErrorCode req = "") by reflexivity.
  assert (H2 : EndOfSession req = 0%Z) by reflexivity.
  assert (H3 : MsgType req = 1%Z \/ MsgType req = 4%Z) by (left; reflexivity).
  assert (H4 : UserData req <> "") by discriminate.
  assert (H5 : fst (resolver req w) = Done (inl apiResponse)) by reflexivity.
  assert (H6 : nextWriteResult (conn w) = Some e) by reflexivity.
  split; [exact H1 |]. split; [exact H2 |]. split; [exact H3 |].
  split; [exact H4 |]. split; [exact H5 |]. split; [exact H6 |].
  exact (handleUSSDRequest_write_failure
           Scenario.getenv Scenario.json_Marshal Scenario.json_Unmarshal
           Scenario.http_Post req w apiResponse e H1 H2 H3 H4 H5 H6).
Defined.

Lemma handleUSSDRequest_nonzero_end_witness :
  let handler := handleUSSDRequest Scenario.getenv Scenario.json_Marshal
                                   Scenario.json_Unmarshal Scenario.http_Post in
  let w := Scenario.start in
  EndOfSession Cases.endTwoRequest <> 0%Z /\
  exists w',
    handler Cases.endTwoRequest w = (Done tt, w') /\
    conn w' = conn w /\
    writes (trace w') = writes (trace w) /\
    calls "getUssdMenu" (trace w') = calls "getUssdMenu" (trace w) /\
    started (trace w') = started (trace w).
Proof.
  intros handler w.
  assert (H : EndOfSession Cases.endTwoRequest <> 0%Z) by discriminate.
  split; [exact H |].
  exact (handleUSSDRequest_nonzero_end
           Scenario.getenv Scenario.json_Marshal Scenario.json_Unmarshal
           Scenario.http_Post Cases.endTwoRequest w H).
Defined.

Lemma getUssdMenu_url_not_set_witness :
  let resolver := getUssdMenu Cases.noURL Scenario.json_Marshal
                              Scenario.json_Unmarshal Scenario.http_Post in
  let req := Scenario.menuRequest in
  let w := Scenario.start in
  let requestBody := list_byte_of_string "MTN *123# 2348011112222 1 R1" in
  Scenario.json_Marshal
    {| Telco := "MTN"; Shortcode := "*" ++ StarCode req ++ "#"; ProductID := 2;
       Phone := MSISDN req; Input := UserData req; SessionID := RequestID req |}
    = inl requestBody /\
  Cases.noURL "USSD_API_URL" = "" /\
  fst (resolver req w) = Done (inr (ErrNew "ussd menu url not set")) /\
  posts (trace (snd (resolver req w))) = posts (trace w).
Proof.
  intros resolver req w requestBody.
  assert (H1 : Scenario.json_Marshal
                 {| Telco := "MTN"; Shortcode := "*" ++ StarCode req ++ "#";
                    ProductID := 2; Phone := MSISDN req; Input := UserData req;
                    SessionID := RequestID req |} = inl requestBody)
    by reflexivity.
  assert (H2 : Cases.noURL "USSD_API_URL" = "") by reflexivity.
  split; [exact H1 |]. split; [exact H2 |].
  exact (getUssdMenu_url_not_set
           Cases.noURL Scenario.json_Marshal Scenario.json_Unmarshal
           Scenario.http_Post req w requestBody H1 H2).
Defined.

Lemma getUssdMenu_asks_and_returns_witness :
  let resolver := getUssdMenu Scenario.getenv Scenario.json_Marshal
                              Scenario.json_Unmarshal Scenario.http_Post in
  let req := Scenario.menuRequest in
  let w := Scenario.start in
  let requestBody := list_byte_of_string "MTN *123# 2348011112222 1 R1" in
  Scenario.json_Marshal
    {| Telco := "MTN"; Shortcode := "*" ++ StarCode req ++ "#"; ProductID := 2;
       Phone := MSISDN req; Input := UserData req; SessionID := RequestID req |}
    = inl requestBody /\
  Scenario.getenv "USSD_API_URL" <> "" /\
  In (EvHTTPPost (Scenario.getenv "USSD_API_URL") requestBody)
     (trace (snd (resolver req w))) /\
  fst (resolver req w) =
    Done match Scenario.http_Post (Scenario.getenv "USSD_API_URL") requestBody with
         | PostFailed err => inr err
         | ReadAllFailed err => inr err
         | Body responseBody => Scenario.json_Unmarshal responseBody
         end.
Proof.
  intros resolver req w requestBody.
  assert (H1 : Scenario.json_Marshal
                 {| Telco := "MTN"; Shortcode := "*" ++ StarCode req ++ "#";
                    ProductID := 2; Phone := MSISDN req; Input := UserData req;
                    SessionID := RequestID req |} = inl requestBody)
    by reflexivity.
  assert (H2 : Scenario.getenv "USSD_API_URL" <> "") by discriminate.
  split; [exact H1 |]. split; [exact H2 |].
  exact (getUssdMenu_asks_and_returns
           Scenario.getenv Scenario.json_Marshal Scenario.json_Unmarshal
           Scenario.http_Post req w requestBody H1 H2).
Defined.

Lemma listenToTCPMessages_idle_until_stopped_witness :
  let listen := Tasks.listenToTCPMessages Cases.stopAtThird in
  let w := Scenario.start in
  pending (conn w) = [] /\
  deadline_result (conn w) = None /\
  (forall j, (j < 2)%nat -> Cases.stopAtThird (0 + j) = false) /\
  Cases.stopAtThird (0 + 2) = true /\
  (2 < 5)%nat /\
  fst (listen 5%nat 0%nat w) = Done ([], true) /\
  conn (snd (listen 5%nat 0%nat w)) = conn w /\
  reads (trace (snd (listen 5%nat 0%nat w))) = (reads (trace w) + 2)%nat /\
  calls "time.Sleep" (trace (snd (listen 5%nat 0%nat w))) =
    (calls "time.Sleep" (trace w) + 2)%nat.
Proof.
  intros listen w.
  assert (H1 : pending (conn w) = []) by reflexivity.
  assert (H2 : deadline_result (conn w) = None) by reflexivity.
  assert (H3 : forall j, (j < 2)%nat -> Cases.stopAtThird (0 + j) = false).
  { intros j Hj. destruct j as [| [| j]]; [reflexivity | reflexivity | lia]. }
  assert (H4 : Cases.stopAtThird (0 + 2) = true) by reflexivity.
  assert (H5 : (2 < 5)%nat) by lia.
  split; [exact H1 |]. split; [exact H2 |]. split; [exact H3 |].
  split; [exact H4 |]. split; [exact H5 |].
  exact (listenToTCPMessages_idle_until_stopped
           Cases.stopAtThird 2%nat 5%nat 0%nat w H1 H2 H3 H4 H5).
Defined.

Lemma listenToTCPMessages_panics_below_16_witness :
  let listen := Tasks.listenToTCPMessages Cases.neverStopped in
  Cases.neverStopped 0 = false /\
  List.length Cases.lowHeader = 19%nat /\
  Strconv.Atoi (string_of_list_byte (skipn 16 Cases.lowHeader)) = inl 15%Z /\
  (15 < 16)%Z /\
  fst (listen 3%nat 0%nat
         (mkWorld (mkConn [Cases.lowHeader ++ []] ErrTimeout None []) [])) =
    Panic "makeslice: len out of range".
Proof.
  intros listen.
  assert (H0 : Cases.neverStopped 0 = false) by reflexivity.
  assert (H1 : List.length Cases.lowHeader = 19%nat) by reflexivity.
  assert (H2 : Strconv.Atoi (string_of_list_byte (skipn 16 Cases.lowHeader))
               = inl 15%Z) by (vm_compute; reflexivity).
  assert (H3 : (15 < 16)%Z) by reflexivity.
  split; [exact H0 |]. split; [exact H1 |]. split; [exact H2 |].
  split; [exact H3 |].
  exact (listenToTCPMessages_panics_below_16
           Cases.neverStopped 2%nat 0%nat Cases.lowHeader [] [] ErrTimeout [] []
           15 H0 H1 H2 H3).
Defined.

Lemma listenToTCPMessages_dispatches_in_order_witness :
  let listen := Tasks.listenToTCPMessages Cases.neverStopped in
  let frames := [Cases.firstFrame; Cases.secondFrame] in
  Forall (fun frame =>
            List.length (fst frame) = 19%nat /\
            Strconv.Atoi (string_of_list_byte (skipn 16 (fst frame))) =
              inl (len (snd frame) + 16)%Z)
         frames /\
  (forall j, (j < List.length frames)%nat -> Cases.neverStopped (0 + j) = false) /\
  fst (listen (List.length frames) 0%nat
         (mkWorld (mkConn (match stream frames with
                           | [] => []
                           | _ :: _ => [stream frames]
                           end) ErrTimeout None []) [])) =
    Done (frames, false).
Proof.
  intros listen frames.
  assert (H1 : Forall (fun frame =>
                 List.length (fst frame) = 19%nat /\
                 Strconv.Atoi (string_of_list_byte (skipn 16 (fst frame))) =
                   inl (len (snd frame) + 16)%Z) frames).
  { repeat constructor; vm_compute; reflexivity. }
  assert (H2 : forall j, (j < List.length frames)%nat ->
                         Cases.neverStopped (0 + j) = false)
    by (intros j _; reflexivity).
  split; [exact H1 |]. split; [exact H2 |].
  exact (listenToTCPMessages_dispatches_in_order
           Cases.neverStopped frames 0%nat ErrTimeout [] [] H1 H2).
Defined.

Lemma main_handshake_failure_is_fatal_witness :
  let mainThread :=
    main 1000000 None "u" "p" "12345"
         Scenario.xml_Marshal_logon Scenario.xml_Marshal_enquire in
  let w := Scenario.start in
  (@None error <> None \/
   nextWriteResult (conn w) <> None \/
   (exists header body e, fst (readResponse w) = Done (header, body, Some e))) /\
  exists format frames,
    fst (mainThread 3%nat w) = Fatal format /\
    writes (trace (snd (mainThread 3%nat w))) = writes (trace w) ++ frames /\
    (List.length frames <= 1)%nat /\
    started (trace (snd (mainThread 3%nat w))) =
      started (trace w) ++ [startHTTPServer].
Proof.
  intros mainThread w.
  assert (H : @None error <> None \/
              nextWriteResult (conn w) <> None \/
              (exists header body e,
                 fst (readResponse w) = Done (header, body, Some e))).
  { right. right.
    exists [], [], (Errorf "read timeout: no message received" None).
    reflexivity. }
  split; [exact H |].
  exact (main_handshake_failure_is_fatal
           1000000%Z None "u" "p" "12345"
           Scenario.xml_Marshal_logon Scenario.xml_Marshal_enquire 3%nat w H).
Defined.

Lemma main_keepalive_failure_is_fatal_witness :
  let mainThread :=
    main 1000000 None "u" "p" "12345"
         Scenario.xml_Marshal_logon Scenario.xml_Marshal_enquire in
  let w := Cases.secondKeepaliveFails in
  @None error = None /\
  fst (readResponse w) = Done (Scenario.logonHeader, Scenario.logonBody, None) /\
  write_results (conn w) =
    repeat None 2 ++ Some (ErrIO "broken pipe") :: [] /\
  (1 < 5)%nat /\
  fst (mainThread 5%nat w) = Fatal "Failed to send Enquire Link: %v" /\
  List.length (writes (trace (snd (mainThread 5%nat w)))) =
    (List.length (writes (trace w)) + 1 + 2)%nat.
Proof.
  intros mainThread w.
  assert (H1 : @None error = None) by reflexivity.
  assert (H2 : fst (readResponse w) =
               Done (Scenario.logonHeader, Scenario.logonBody, None))
    by (vm_compute; reflexivity).
  assert (H3 : write_results (conn w) =
               repeat None 2 ++ Some (ErrIO "broken pipe") :: [])
    by reflexivity.
  assert (H4 : (1 < 5)%nat) by lia.
  split; [exact H1 |]. split; [exact H2 |]. split; [exact H3 |].
  split; [exact H4 |].
  exact (main_keepalive_failure_is_fatal
           1000000%Z None "u" "p" "12345"
           Scenario.xml_Marshal_logon Scenario.xml_Marshal_enquire
           1%nat 5%nat w Scenario.logonHeader Scenario.logonBody
           (ErrIO "broken pipe") [] H1 H2 H3 H4).
Defined.

Lemma init_missing_variable_witness :
  let init := Startup.init None Cases.noPasswordEnv Cases.JoinHostPort
                           Cases.logger_New in
  @None error = None /\
  (init = Fatal "Missing required environment variable: %s" <->
   exists v, In v Startup.requiredVars /\ Cases.noPasswordEnv v = "").
Proof.
  intros init.
  assert (H : @None error = None) by reflexivity.
  split; [exact H |].
  exact (init_missing_variable None Cases.noPasswordEnv Cases.JoinHostPort
           Cases.logger_New H).
Defined.

Lemma init_success_values_witness :
  let init := Startup.init None Cases.fullEnv Cases.JoinHostPort
                           Cases.logger_New in
  let g :=
    {| Startup.ServerAddress := "10.0.0.1:8000";
       Startup.Username := "u";
       Startup.Password := "p";
       Startup.ClientID := "12345";
       Startup.AppLoggerPath := "./logs/log";
       Startup.ErrorLoggerPath := "./logs/errors";
       Startup.RequestLoggerPath := "./logs/requests";
       Startup.MenuLoggerPath := "./logs/menu" |} in
  let logPath :=
    if String.eqb (Cases.fullEnv "LOG_PATH") "" then "./logs"
    else Cases.fullEnv "LOG_PATH" in
  init = Done g /\
  @None error = None /\
  (forall v, In v Startup.requiredVars -> Cases.fullEnv v <> "") /\
  Startup.ServerAddress g =
    Cases.JoinHostPort (Cases.fullEnv "SERVER_HOST") (Cases.fullEnv "SERVER_PORT") /\
  Startup.Username g = Cases.fullEnv "USERNAME" /\
  Startup.Password g = Cases.fullEnv "PASSWORD" /\
  Startup.ClientID g = Cases.fullEnv "CLIENT_ID" /\
  Startup.AppLoggerPath g = (logPath ++ "/log")%string /\
  Startup.ErrorLoggerPath g = (logPath ++ "/errors")%string /\
  Startup.RequestLoggerPath g = (logPath ++ "/requests")%string /\
  Startup.MenuLoggerPath g = (logPath ++ "/menu")%string /\
  Forall (fun dir => Cases.logger_New (logPath ++ dir)%string = None)
         ["/log"; "/errors"; "/requests"; "/menu"].
Proof.
  intros init g logPath.
  assert (H : init = Done g) by reflexivity.
  split; [exact H |].
  exact (init_success_values None Cases.fullEnv Cases.JoinHostPort
           Cases.logger_New g H).
Defined.
